(** * dashboard.py: ingestion, normalization and evaluation of booth sensor data

    A shallow embedding of the data pipeline of [dashboard.py]
    ([get_data_from_sheet], [load_sensor_data], [get_locations], the
    routes [dashboard], [location] and [booth], and the rows that
    [update_graph_live] selects), the properties of it that the
    specification states, and further properties that the code shows.

    Conventions of the embedding.
    - A pandas scalar is a [cell]. A float64 or int64 value is the rational
      it denotes; [NaN] and [NaT] are constructors of their own. Rounding
      and the infinities are outside the model.
    - A timestamp is its number of nanoseconds since the epoch, as
      datetime64[ns] stores it.
    - A row is a finite map from column names to cells, a DataFrame a list
      of column names and a list of rows.
    - Python exceptions are the [Raise] case of [result]; [try]/[except]
      is a match on it. A local variable that may be unbound is an
      [option], read with [read_var].
    - What the code leaves to pandas and numpy (which strings parse as
      numbers and as dates, in which order the default sort leaves rows of
      equal time) is a field of the record [Pandas]; the theorems hold for
      every such library that meets [pandas_contract].
    - The request sees one world: the worksheet, the files, the client
      table and the clock, read once. What the code prints is left out. *)

From Stdlib Require Import QArith Ascii String.
From stdpp Require Import gmap strings list sorting.

Close Scope Q_scope.
Local Open Scope Z_scope.

(** ** Python results *)

Inductive exn :=
| UnboundLocalError (var : string)
| KeyError (key : string)
| TypeError
| ValueError
| AttributeError
| IndexError
| IOError.

Inductive result (A : Type) :=
| Ok (a : A)
| Raise (e : exn).
Arguments Ok {A} a.
Arguments Raise {A} e.

Definition bind {A B} (m : result A) (k : A → result B) : result B :=
  match m with Ok a => k a | Raise e => Raise e end.

Notation "x <- m ; k" := (bind m (λ x, k))
  (at level 20, m at level 100, k at level 200, only parsing).

Global Instance result_ret : MRet result := λ A a, Ok a.
Global Instance result_bind : MBind result := λ A B k m, bind m k.
Global Instance result_fmap : FMap result :=
  λ A B f m, match m with Ok a => Ok (f a) | Raise e => Raise e end.

(** [try: m except Exception: h]. *)
Definition try_except {A} (m : result A) (h : exn → result A) : result A :=
  match m with Ok a => Ok a | Raise e => h e end.

(** Reading a local variable that an earlier statement may not have bound. *)
Definition read_var {A} (name : string) (v : option A) : result A :=
  match v with Some a => Ok a | None => Raise (UnboundLocalError name) end.

(** [for x in xs: body], the loop state passed from one iteration to the next. *)
Fixpoint for_in {A S} (xs : list A) (body : A → S → result S) (s : S) : result S :=
  match xs with
  | [] => Ok s
  | x :: xs' => s' <- body x s; for_in xs' body s'
  end.

(** ** Cells, rows and frames *)

Inductive cell :=
| CNone                 (* Python None in an object column *)
| CStr (s : string)
| CNum (q : Q)          (* a finite int64 or float64 value *)
| CNaN
| CTime (t : Z)         (* Timestamp, nanoseconds since the epoch *)
| CNaT.

Global Instance Q_eq_dec : EqDecision Q.
Proof. solve_decision. Defined.
Global Instance cell_eq_dec : EqDecision cell.
Proof. solve_decision. Defined.

Abbreviation Row := (gmap string cell).

Record DataFrame := { columns : list string; rows : list Row }.

(** [df.empty]: one of the two axes has length zero. *)
Definition empty (df : DataFrame) : bool :=
  bool_decide (rows df = []) || bool_decide (columns df = []).

(** [row.get(key)]: the value, or None when the key is missing. *)
Definition Series_get (r : Row) (key : string) : cell := default CNone (r !! key).

(** [df[col] = value] with a scalar: a new column, or an old one overwritten. *)
Definition assign_scalar (col : string) (v : cell) (df : DataFrame) : DataFrame :=
  {| columns := if bool_decide (col ∈ columns df) then columns df else columns df ++ [col];
     rows := (λ r, <[col := v]> r) <$> rows df |}.

(** [df[col] = f(df[col])] for an elementwise [f]; reading a column that
    the frame does not have is a KeyError. *)
Definition map_column (f : cell → cell) (col : string) (df : DataFrame) : result DataFrame :=
  if bool_decide (col ∈ columns df)
  then Ok {| columns := columns df; rows := (λ r, alter f col r) <$> rows df |}
  else Raise (KeyError col).

(** [df.iloc[-1]]. *)
Definition iloc_last (df : DataFrame) : result Row :=
  match last (rows df) with Some r => Ok r | None => Raise IndexError end.

(** ** The library *)

Record Pandas := {
  (* the number pd.to_numeric reads in a string, if it reads one *)
  parse_float : string → option Q;
  (* the instant pd.to_datetime reads in a string or in a number *)
  parse_datetime : cell → option Z;
  (* the order in which sort_values (default kind, quicksort) leaves the
     rows whose key is present; each row comes with its key *)
  quicksort : list (Z * Row) → list (Z * Row);
}.

Definition key_le (x y : Z * Row) : Prop := x.1 ≤ y.1.

(** What is assumed of the library. The default sort rearranges the rows
    and leaves the keys ascending; its documentation promises no order
    among equal keys, and none is assumed. The empty string is not a number
    (the comment at line 95 relies on it). *)
Record pandas_contract (pd : Pandas) : Prop := {
  sort_perm : ∀ l, quicksort pd l ≡ₚ l;
  sort_sorted : ∀ l, StronglySorted key_le (quicksort pd l);
  empty_string_nan : parse_float pd "" = None;
}.

(** [pd.to_numeric(_, errors='coerce')] on one cell. *)
Definition to_numeric (pd : Pandas) (c : cell) : cell :=
  match c with
  | CNum q => CNum q
  | CStr s => match parse_float pd s with Some q => CNum q | None => CNaN end
  | CNone | CNaN | CTime _ | CNaT => CNaN
  end.

(** [pd.to_datetime(_, errors='coerce')] on one cell: a timestamp is
    kept, a null is NaT, a string or a number is read. *)
Definition to_datetime (pd : Pandas) (c : cell) : cell :=
  match c with
  | CTime t => CTime t
  | CNone | CNaN | CNaT => CNaT
  | CStr _ | CNum _ =>
      match parse_datetime pd c with Some t => CTime t | None => CNaT end
  end.

(** The key of a row in a sort by time: present, or NaT. *)
Definition time_of (r : Row) : option Z :=
  match r !! "time" with Some (CTime t) => Some t | _ => None end.

Definition keyed (rs : list Row) : list (Z * Row) :=
  omap (λ r, (λ t, (t, r)) <$> time_of r) rs.

Definition unkeyed (rs : list Row) : list Row :=
  filter (λ r, time_of r = None) rs.

(** [df.sort_values(by='time').reset_index(drop=True)] on a frame whose
    time column holds timestamps: the rows with a time in the order the
    sort gives them, then the rows without one in the order they had
    (na_position='last'). Without a time column it is a KeyError. *)
Definition sort_rows (pd : Pandas) (rs : list Row) : list Row :=
  (snd <$> quicksort pd (keyed rs)) ++ unkeyed rs.

Definition sort_values_by_time (pd : Pandas) (df : DataFrame) : result DataFrame :=
  if bool_decide ("time" ∈ columns df)
  then Ok {| columns := columns df; rows := sort_rows pd (rows df) |}
  else Raise (KeyError "time").

(** ** The world the request runs in *)

(** The worksheet object of the module: what [get_all_records] followed by
    [pd.DataFrame] gives when it is called, or the exception it raises. *)
Record Worksheet := { get_all_records : result DataFrame }.

(** A row of clients.csv; the fields are its columns. *)
Module Clients.
Record Row := { client_name : string; location : string; booth : string }.
End Clients.
Abbreviation ClientRow := Clients.Row.

Record World := {
  (* None when the connection at start-up failed and left the global unset *)
  worksheet : option Worksheet;
  (* the files under the working directory: a path that exists is mapped
     to the outcome of pd.read_csv on it *)
  files : gmap string (result DataFrame);
  (* clients.csv, read at start-up *)
  df_clients : list ClientRow;
  (* datetime.now(), nanoseconds since the epoch *)
  now : Z;
}.

(** [s.replace(' ', '')]. *)
Fixpoint remove_spaces (s : string) : string :=
  match s with
  | EmptyString => EmptyString
  | String c s' => if Ascii.eqb c " "%char then remove_spaces s' else String c (remove_spaces s')
  end.

(** [os.path.join(a, b)] on POSIX: an absolute [b] discards [a]. *)
Definition path_join (a b : string) : string :=
  match b with
  | String "/"%char _ => b
  | _ => a +:+ "/" +:+ b
  end.

(** ** 3. Helper functions *)

Definition get_data_from_sheet (pd : Pandas) (W : World) : result (option DataFrame) :=
  match worksheet W with
  | None => Ok None
  | Some ws =>
      try_except
        (df <- get_all_records ws;
         df <- (if bool_decide ("time" ∈ columns df)
               then map_column (to_datetime pd) "time" df else Ok df);
         df <- sort_values_by_time pd df;
         Ok (Some df))
        (λ _, Ok None)
  end.

Definition required_cols : list string :=
  ["time"; "temp_c"; "humidity_pct"; "co2_ppm"; "pir_state"].

Definition numeric_cols : list string := ["temp_c"; "humidity_pct"; "co2_ppm"].

(** Step 1: every required column exists, filled with None where it was missing. *)
Definition ensure_required_cols (df : DataFrame) : result DataFrame :=
  for_in required_cols
    (λ col df, if bool_decide (col ∈ columns df) then Ok df
               else Ok (assign_scalar col CNone df)) df.

(** Step 2: the sensor columns are numeric. *)
Definition enforce_numeric (pd : Pandas) (df : DataFrame) : result DataFrame :=
  for_in numeric_cols
    (λ col df, if bool_decide (col ∈ columns df)
               then map_column (to_numeric pd) col df else Ok df) df.

(** Step 3: the time column holds timestamps. *)
Definition enforce_datetime (pd : Pandas) (df : DataFrame) : result DataFrame :=
  if bool_decide ("time" ∈ columns df)
  then map_column (to_datetime pd) "time" df else Ok df.

(** The body of [if df is not None and not df.empty:] in [load_sensor_data]. *)
Definition normalize (pd : Pandas) (df : DataFrame) : result DataFrame :=
  df <- ensure_required_cols df;
  df <- enforce_numeric pd df;
  df <- enforce_datetime pd df;
  sort_values_by_time pd df.

(** [os.path.join('data', f"{loc_name.replace(' ', '')}_{clean_booth_name}.csv")]. *)
Definition csv_path (loc_name clean_booth_name : string) : string :=
  path_join "data" (remove_spaces loc_name +:+ "_" +:+ clean_booth_name +:+ ".csv").

(** The [return None] of the except branch leaves the function at once;
    so does the fall-through with [df = None], with the same result, and
    that is how the branch is written here. *)
Definition load_sensor_data (pd : Pandas) (W : World) (loc_name booth_name : string)
  : result (option DataFrame) :=
  let clean_booth_name := remove_spaces booth_name in
  df <- (if bool_decide (loc_name = "Adelaide") && bool_decide (clean_booth_name = "BoothA")
        then get_data_from_sheet pd W
        else
          let filepath := csv_path loc_name clean_booth_name in
          match files W !! filepath with
          | Some read_csv => try_except (Some <$> read_csv) (λ _, Ok None)
          | None => Ok None
          end);
  match df with
  | Some df => if negb (empty df) then Some <$> normalize pd df else Ok None
  | None => Ok None
  end.

(** [Series.unique()]: the distinct values, in the order they first occur. *)
Definition unique `{EqDecision A} (l : list A) : list A :=
  foldl (λ acc x, if bool_decide (x ∈ acc) then acc else acc ++ [x]) [] l.

(** [if client_name:]: None and the empty string are false. *)
Definition truthy_str (s : option string) : bool :=
  match s with Some (String _ _) => true | _ => false end.

Definition get_locations (clients : list ClientRow) (client : option string) : list string :=
  if truthy_str client
  then unique (Clients.location
                 <$> filter (λ c, Some (Clients.client_name c) = client) clients)
  else unique (Clients.location <$> clients).

(** ** Scalars: comparison, truth value, arithmetic, formatting *)

Definition Qgtb (a b : Q) : bool := negb (Qle_bool a b).

(** [int(x)] on a float: the fraction is cut off, towards zero. *)
Definition Qtrunc (q : Q) : Z := Z.quot (Qnum q) (Z.pos (Qden q)).

Definition is_not_None (c : cell) : bool :=
  match c with CNone => false | _ => true end.

(** [c > bound] against a number: NaN compares false, a string, None or a
    timestamp cannot be compared with a number. *)
Definition cell_gt (c : cell) (bound : Q) : result bool :=
  match c with
  | CNum q => Ok (Qgtb q bound)
  | CNaN => Ok false
  | CNone | CStr _ | CTime _ | CNaT => Raise TypeError
  end.

(** [c is not None and c > bound]. *)
Definition exceeds (c : cell) (bound : Q) : result bool :=
  if is_not_None c then cell_gt c bound else Ok false.

Definition int_of_cell (c : cell) : result Z :=
  match c with
  | CNum q => Ok (Qtrunc q)
  | CNaN => Raise ValueError
  | _ => Raise TypeError
  end.

(** The truth value of a cell in [if c:]. NaN is a non-zero float, and
    NaT, like every datetime, defines no truth value of its own: both are
    true. *)
Definition truthy (c : cell) : bool :=
  match c with
  | CNone => false
  | CStr s => negb (bool_decide (s = ""))
  | CNum q => negb (Qeq_bool q 0)
  | CNaN | CTime _ | CNaT => true
  end.

Definition hour_ns : Z := 3600 * 1000000000.
Definition day_ns : Z := 24 * hour_ns.

(** [datetime.now() - c]: a duration in nanoseconds, NaT (None) for NaT. *)
Definition now_minus (now : Z) (c : cell) : result (option Z) :=
  match c with
  | CTime t => Ok (Some (now - t))
  | CNaT => Ok None
  | _ => Raise TypeError
  end.

(** [time_diff > timedelta(hours=1)]; NaT compares false. *)
Definition longer_than_hour (d : option Z) : bool :=
  match d with Some d => bool_decide (hour_ns < d) | None => false end.

(** The proleptic Gregorian date of a day number counted from 1970-01-01. *)
Definition civil_from_days (days : Z) : Z * Z * Z :=
  let z := days + 719468 in
  let era := z / 146097 in
  let doe := z - era * 146097 in
  let yoe := (doe - doe / 1460 + doe / 36524 - doe / 146096) / 365 in
  let doy := doe - (365 * yoe + yoe / 4 - yoe / 100) in
  let mp := (5 * doy + 2) / 153 in
  let d := doy - (153 * mp + 2) / 5 + 1 in
  let m := if bool_decide (mp < 10) then mp + 3 else mp - 9 in
  let y := yoe + era * 400 in
  (if bool_decide (m ≤ 2) then y + 1 else y, m, d).

Definition digit_char (d : Z) : ascii := ascii_of_nat (Z.to_nat (48 + d `mod` 10)).

Definition pad2 (n : Z) : string :=
  String (digit_char (n / 10)) (String (digit_char n) "").

Definition pad4 (n : Z) : string :=
  String (digit_char (n / 1000)) (String (digit_char (n / 100)) (pad2 n)).

(** [Timestamp.strftime('%H:%M')]. *)
Definition strftime_HM (t : Z) : string :=
  let secs := (t `mod` day_ns) / 1000000000 in
  pad2 (secs / 3600) +:+ ":" +:+ pad2 (secs `mod` 3600 / 60).

(** [Timestamp.strftime('%Y-%m-%d %H:%M')]. *)
Definition strftime_Ymd_HM (t : Z) : string :=
  let '(y, m, d) := civil_from_days (t / day_ns) in
  pad4 y +:+ "-" +:+ pad2 m +:+ "-" +:+ pad2 d +:+ " " +:+ strftime_HM t.

(** [c.strftime('%Y-%m-%d %H:%M')]: NaT refuses it with a ValueError, and
    a cell that is no timestamp has no such method. *)
Definition strftime (c : cell) : result string :=
  match c with
  | CTime t => Ok (strftime_Ymd_HM t)
  | CNaT => Raise ValueError
  | _ => Raise AttributeError
  end.

(** [Series.mean()], NaN skipped; NaN when nothing is left. *)
Definition numeric_value (c : cell) : result (option Q) :=
  match c with
  | CNum q => Ok (Some q)
  | CNaN => Ok None
  | _ => Raise TypeError
  end.

Definition Qsum (qs : list Q) : Q := foldr Qplus 0%Q qs.

Definition Series_mean (cs : list cell) : result cell :=
  vs <- mapM numeric_value cs;
  match omap id vs with
  | [] => Ok CNaN
  | qs => Ok (CNum (Qsum qs / inject_Z (Z.of_nat (length qs))))
  end.

(** [a - b] on two floats. *)
Definition cell_sub (a b : cell) : result cell :=
  a <- numeric_value a;
  b <- numeric_value b;
  match a, b with
  | Some a, Some b => Ok (CNum (a - b))
  | _, _ => Ok CNaN
  end.

(** ** 4. Routes *)

Record Session := {
  username : option string;
  role : option string;
  client_name : option string;
}.

(** [client_name if session.get('role') == 'client' else None]. *)
Definition client_filter (session : Session) : option string :=
  if bool_decide (role session = Some "client") then client_name session else None.

(** [df_clients[df_clients['location'] == loc]['booth'].unique().tolist()]. *)
Definition booths_of (clients : list ClientRow) (loc : string) : list string :=
  unique (Clients.booth <$> filter (λ c, Clients.location c = loc) clients).

(** The text of an alert is kept as the values it interpolates. *)
Inductive AlertEvent :=
| HighCO2 (loc booth_name : string) (ppm : Z)
| HighTemp (loc booth_name : string) (temp : Q).

Record SystemStatus := {
  status_location : string;
  status_booth : string;
  last_seen : string;
  status : string;
}.

Record KpiData := {
  temp_labels : list cell;
  temp_values : list cell;
  humidity_values : list cell;
  occupancy_counts : list (cell * nat);
}.

(** The locals of [dashboard] that outlive the statement that binds them. *)
Record Locals := {
  loc : option string;
  booth_name : option string;
  latest : option Row;
  alert_count : nat;
  location_summaries : gmap string nat;
}.

Definition locals0 : Locals :=
  {| loc := None; booth_name := None; latest := None; alert_count := 0%nat;
     location_summaries := ∅ |}.

(** Lines 158-165: one booth of the inner loop. *)
Definition dashboard_booth (pd : Pandas) (W : World) (l : string)
    (b : string) (s : Locals) : result Locals :=
  df_booth <- load_sensor_data pd W l b;
  let s := {| loc := loc s; booth_name := Some b; latest := latest s;
              alert_count := alert_count s;
              location_summaries := location_summaries s |} in
  match df_booth with
  | Some df =>
      if negb (empty df) then
        row <- iloc_last df;
        let co2_val := Series_get row "co2_ppm" in
        let temp_val := Series_get row "temp_c" in
        high_co2 <- exceeds co2_val 1000;
        alert <- (if high_co2 then Ok true else exceeds temp_val 25);
        Ok {| loc := loc s; booth_name := booth_name s; latest := Some row;
              alert_count := if alert then S (alert_count s) else alert_count s;
              location_summaries := location_summaries s |}
      else Ok s
  | None => Ok s
  end.

(** Lines 155-166: one location of the outer loop. *)
Definition dashboard_location (pd : Pandas) (W : World)
    (l : string) (s : Locals) : result Locals :=
  let s := {| loc := Some l; booth_name := booth_name s; latest := latest s;
              alert_count := 0; location_summaries := location_summaries s |} in
  s <- for_in (booths_of (df_clients W) l) (dashboard_booth pd W l) s;
  Ok {| loc := loc s; booth_name := booth_name s; latest := latest s;
        alert_count := alert_count s;
        location_summaries := <[l := alert_count s]> (location_summaries s) |}.

(** Lines 169-173, which follow the loops: the alerts log. *)
Definition alerts_log (s : Locals) : result (list AlertEvent) :=
  row <- read_var "latest" (latest s);
  let co2_val := Series_get row "co2_ppm" in
  let temp_val := Series_get row "temp_c" in
  high_co2 <- exceeds co2_val 1000;
  co2_alerts <- (if high_co2 then
                  l <- read_var "loc" (loc s);
                  b <- read_var "booth_name" (booth_name s);
                  ppm <- int_of_cell co2_val;
                  Ok [HighCO2 l b ppm]
                else Ok []);
  high_temp <- exceeds temp_val 25;
  temp_alerts <- (if high_temp then
                   l <- read_var "loc" (loc s);
                   b <- read_var "booth_name" (booth_name s);
                   match temp_val with
                   | CNum t => Ok [HighTemp l b t]
                   | _ => Raise TypeError
                   end
                 else Ok []);
  Ok (co2_alerts ++ temp_alerts).

(** Lines 176-184, which follow the loops: the system status panel. *)
Definition status_panel (W : World) (s : Locals) : result (list SystemStatus) :=
  row <- read_var "latest" (latest s);
  let seen := Series_get row "time" in
  if truthy seen then
    time_diff <- now_minus (now W) seen;
    let st := if longer_than_hour time_diff then "Offline" else "Online" in
    l <- read_var "loc" (loc s);
    b <- read_var "booth_name" (booth_name s);
    text <- strftime seen;
    Ok [{| status_location := l; status_booth := b; last_seen := text; status := st |}]
  else
    l <- read_var "loc" (loc s);
    b <- read_var "booth_name" (booth_name s);
    Ok [{| status_location := l; status_booth := b; last_seen := "Never";
           status := "Offline" |}].

(** [Series.value_counts().to_dict()]: how often each value that is not
    null occurs. *)
Definition isna (c : cell) : bool :=
  match c with CNone | CNaN | CNaT => true | _ => false end.

Definition value_counts (cs : list cell) : list (cell * nat) :=
  let vs := filter (λ c, isna c = false) cs in
  (λ v, (v, length (filter (λ x, x = v) vs))) <$> unique vs.

(** [df.tail(n)]. *)
Definition tail_rows (n : nat) (rs : list Row) : list Row := drop (length rs - n) rs.

(** Lines 190-196. The frame comes from [load_sensor_data], so the four
    columns are there and the time column holds timestamps. *)
Definition kpi_of (df : DataFrame) : KpiData :=
  let recent_data := tail_rows 24 (rows df) in
  {| temp_labels :=
       (λ r, match time_of r with Some t => CStr (strftime_HM t) | None => CNaN end)
         <$> recent_data;
     temp_values := (λ r, Series_get r "temp_c") <$> recent_data;
     humidity_values := (λ r, Series_get r "humidity_pct") <$> recent_data;
     occupancy_counts := value_counts ((λ r, Series_get r "pir_state") <$> recent_data) |}.

(** What [dashboard] returns. The lists [active_alerts] and
    [system_status] are built and then not handed to the template; they are
    kept next to the template's arguments so that they can be spoken of. *)
Inductive DashboardResult :=
| DashboardRedirect (endpoint : string)
| DashboardPage (locations : list string) (summaries : gmap string nat)
    (kpi_data : option KpiData)
    (active_alerts : list AlertEvent) (system_status : list SystemStatus).

Definition dashboard (pd : Pandas) (W : World) (session : Session) : result DashboardResult :=
  if bool_decide (username session = None) then Ok (DashboardRedirect "login") else
  let locations := get_locations (df_clients W) (client_filter session) in
  s <- for_in locations (dashboard_location pd W) locals0;
  active_alerts <- alerts_log s;
  system_status <- status_panel W s;
  df_spotlight <- load_sensor_data pd W "Adelaide" "Booth A";
  let kpi_data :=
    match df_spotlight with
    | Some df => if negb (empty df) then Some (kpi_of df) else None
    | None => None
    end in
  Ok (DashboardPage locations (location_summaries s) kpi_data active_alerts system_status).

Record BoothPage := {
  reading : Row;
  historical_context : gmap string cell;
  page_locations : list string;
  has_data : bool;
}.

Inductive BoothResult :=
| BoothRedirect (endpoint : string)
| BoothDenied
| BoothRendered (page : BoothPage).

(** Line 226: the rows older than a day; a comparison with NaT is false. *)
Definition yesterday_rows (now : Z) (rs : list Row) : list Row :=
  filter (λ r, match time_of r with
               | Some t => bool_decide (t < now - day_ns)
               | None => false
               end = true) rs.

(** Lines 230-233 for one metric: [if key in reading and reading[key] is
    not None: historical_context[name] = reading[key] - yesterday[key].mean()]. *)
Definition change_of (rd : Row) (yesterday_data : list Row) (key name : string)
    (ctx : gmap string cell) : result (gmap string cell) :=
  match rd !! key with
  | Some v =>
      if is_not_None v then
        m <- Series_mean ((λ r, Series_get r key) <$> yesterday_data);
        d <- cell_sub v m;
        Ok (<[name := d]> ctx)
      else Ok ctx
  | None => Ok ctx
  end.

(** Lines 221-233: the historical context of a frame with data. *)
Definition historical (now : Z) (df : DataFrame) : result (gmap string cell) :=
  rd <- iloc_last df;
  let yesterday_data := yesterday_rows now (rows df) in
  if bool_decide (yesterday_data ≠ []) then
    ctx <- change_of rd yesterday_data "temp_c" "temp_change" ∅;
    change_of rd yesterday_data "humidity_pct" "hum_change" ctx
  else Ok ∅.

Definition has_rows (df : option DataFrame) : bool :=
  match df with Some df => negb (empty df) | None => false end.

Definition booth (pd : Pandas) (W : World) (session : Session)
    (loc_name booth_name : string) : result BoothResult :=
  if bool_decide (username session = None) then Ok (BoothRedirect "login") else
  df_booth_data <- load_sensor_data pd W loc_name booth_name;
  historical_context <-
    match df_booth_data with
    | Some df => if negb (empty df) then historical (now W) df else Ok ∅
    | None => Ok ∅
    end;
  session_role <- match role session with Some r => Ok r | None => Raise (KeyError "role") end;
  let allowed_booths :=
    Clients.booth
      <$> filter (λ c, Some (Clients.client_name c) = client_name session
                       ∧ Clients.location c = loc_name) (df_clients W) in
  if bool_decide (session_role = "client") && negb (bool_decide (booth_name ∈ allowed_booths))
  then Ok BoothDenied else
  df_booth_data <- load_sensor_data pd W loc_name booth_name;
  rd <- match df_booth_data with
        | Some df => if negb (empty df) then iloc_last df else Ok ∅
        | None => Ok ∅
        end;
  Ok (BoothRendered
        {| reading := rd; historical_context := historical_context;
           page_locations := get_locations (df_clients W) (client_filter session);
           has_data := has_rows df_booth_data |}).

(** ** A reference library

    One library that meets the contract, for running the model: decimal
    numbers, timestamps written [YYYY-MM-DD HH:MM:SS], and a merge sort
    (which, like the default sort of the real library, is not stable). *)

Module Reference.

Definition digit_of (c : ascii) : option Z :=
  let n := Z.of_nat (nat_of_ascii c) in
  if bool_decide (48 ≤ n ≤ 57) then Some (n - 48) else None.

(** The digits at the head of [s]: their value, how many, and the rest. *)
Fixpoint digits (s : string) (acc : Z) (n : nat) : Z * nat * string :=
  match s with
  | String c s' =>
      match digit_of c with
      | Some d => digits s' (10 * acc + d) (S n)
      | None => (acc, n, s)
      end
  | EmptyString => (acc, n, s)
  end.

Definition parse_decimal (s : string) : option Q :=
  let '(neg, s) := match s with
                   | String "-"%char s' => (true, s')
                   | _ => (false, s)
                   end in
  let sign (q : Q) := Qred (if neg : bool then Qopp q else q) in
  let '(ip, n1, rest) := digits s 0 0 in
  match rest with
  | EmptyString => if bool_decide (n1 = 0%nat) then None else Some (sign (inject_Z ip))
  | String "."%char rest' =>
      let '(fp, n2, rest'') := digits rest' 0 0 in
      if bool_decide (rest'' = "") && negb (bool_decide ((n1 + n2)%nat = 0%nat))
      then Some (sign (Qmake (ip * 10 ^ Z.of_nat n2 + fp) (Z.to_pos (10 ^ Z.of_nat n2))))
      else None
  | _ => None
  end.

Definition days_from_civil (y m d : Z) : Z :=
  let y := if bool_decide (m ≤ 2) then y - 1 else y in
  let era := y / 400 in
  let yoe := y - era * 400 in
  let mp := (m + 9) `mod` 12 in
  let doy := (153 * mp + 2) / 5 + d - 1 in
  let doe := yoe * 365 + yoe / 4 - yoe / 100 + doy in
  era * 146097 + doe - 719468.

Definition number_at (s : string) (i n : nat) : option Z :=
  let '(v, k, rest) := digits (substring i n s) 0 0 in
  if bool_decide (k = n) && bool_decide (rest = "") then Some v else None.

Definition parse_iso (s : string) : option Z :=
  if bool_decide (String.length s = 19%nat)
     && bool_decide (substring 4 1 s = "-") && bool_decide (substring 7 1 s = "-")
     && bool_decide (substring 10 1 s = " ")
     && bool_decide (substring 13 1 s = ":") && bool_decide (substring 16 1 s = ":")
  then
    y ← number_at s 0 4; m ← number_at s 5 2; d ← number_at s 8 2;
    hh ← number_at s 11 2; mm ← number_at s 14 2; ss ← number_at s 17 2;
    if bool_decide (1 ≤ m ≤ 12 ∧ 1 ≤ d ≤ 31 ∧ hh < 24 ∧ mm < 60 ∧ ss < 60)
    then Some ((days_from_civil y m d * 86400 + hh * 3600 + mm * 60 + ss) * 1000000000)
    else None
  else None.

Global Instance key_le_dec : RelDecision key_le.
Proof. intros x y. unfold key_le. apply _. Defined.

Definition pd : Pandas :=
  {| parse_float := parse_decimal;
     parse_datetime := λ c, match c with CStr s => parse_iso s | _ => None end;
     quicksort := merge_sort key_le |}.

End Reference.

(** ** Normalized frames *)

(** What the three steps before the sort do to one row of a frame with
    the columns [cols]. *)
Definition fill_step (cols : list string) (r : Row) (c : string) : Row :=
  if bool_decide (c ∈ cols) then r else <[c := CNone]> r.

Definition fill_row (cols : list string) (r : Row) : Row :=
  foldl (fill_step cols) r required_cols.

Definition numeric_row (pd : Pandas) (r : Row) : Row :=
  foldl (λ r c, alter (to_numeric pd) c r) r numeric_cols.

Definition normalize_row (pd : Pandas) (cols : list string) (r : Row) : Row :=
  alter (to_datetime pd) "time" (numeric_row pd (fill_row cols r)).


Definition is_numeric (c : cell) : Prop :=
  match c with CNum _ | CNaN => True | _ => False end.

Definition is_datetime (c : cell) : Prop :=
  match c with CTime _ | CNaT => True | _ => False end.


Record typed_row (r : Row) : Prop := {
  typed_numeric : ∀ c v, c ∈ numeric_cols → r !! c = Some v → is_numeric v;
  typed_time : ∀ v, r !! "time" = Some v → is_datetime v;
}.

(** The times that are present, in the order of the rows. *)
Definition times (rs : list Row) : list Z := omap time_of rs.

(** The rows without a time come after the rows with one. *)
Definition na_last (rs : list Row) : Prop :=
  ∃ P M, rs = P ++ M ∧ Forall (λ r, is_Some (time_of r)) P
         ∧ Forall (λ r, time_of r = None) M.

Record normalized (df : DataFrame) : Prop := {
  norm_columns : ∀ c, c ∈ required_cols → c ∈ columns df;
  norm_typed : Forall typed_row (rows df);
  norm_na_last : na_last (rows df);
  norm_sorted : StronglySorted Z.le (times (rows df));
}.

(** Rows that carry their own time as key: what [keyed] builds, and what
    a rearrangement keeps. *)
Definition own_key (p : Z * Row) : Prop := time_of p.2 = Some p.1.

(** ** The two alert rules

    What lines 170-173 add to the log for a reading of a normalized frame. *)
Definition co2_rule (l b : string) (c : cell) : list AlertEvent :=
  match c with
  | CNum q => if Qgtb q 1000 then [HighCO2 l b (Qtrunc q)] else []
  | _ => []
  end.

Definition temp_rule (l b : string) (c : cell) : list AlertEvent :=
  match c with
  | CNum t => if Qgtb t 25 then [HighTemp l b t] else []
  | _ => []
  end.

(** What the loops leave in [latest], if anything, is the last row of a
    normalized frame, and the names it is reported under are bound. *)
Definition left_over (s : Locals) : Prop :=
  ∀ r, latest s = Some r → typed_row r ∧ is_Some (loc s) ∧ is_Some (booth_name s).

(** ** When a source is unavailable *)

(** The one booth that is read from the remote sheet. *)
Definition is_remote (loc_name booth_name : string) : Prop :=
  loc_name = "Adelaide" ∧ remove_spaces booth_name = "BoothA".

Inductive unavailable (W : World) (loc_name booth_name : string) : Prop :=
| remote_uninitialized :
    is_remote loc_name booth_name → worksheet W = None →
    unavailable W loc_name booth_name
| remote_unreachable ws e :
    is_remote loc_name booth_name → worksheet W = Some ws →
    get_all_records ws = Raise e →
    unavailable W loc_name booth_name
| local_missing :
    ¬ is_remote loc_name booth_name →
    files W !! csv_path loc_name (remove_spaces booth_name) = None →
    unavailable W loc_name booth_name
| local_unparsable e :
    ¬ is_remote loc_name booth_name →
    files W !! csv_path loc_name (remove_spaces booth_name) = Some (Raise e) →
    unavailable W loc_name booth_name.

(** ** Requests to run the model on *)

Module Scenario.

Definition raw_row (time temp_c humidity_pct co2_ppm pir_state : string) : Row :=
  {[ "time" := CStr time; "temp_c" := CStr temp_c; "humidity_pct" := CStr humidity_pct;
     "co2_ppm" := CStr co2_ppm; "pir_state" := CStr pir_state ]}.

Definition csv (rs : list Row) : result DataFrame :=
  Ok {| columns := required_cols; rows := rs |}.

(** 2024-01-02 12:00:00. *)
Definition noon : Z := 1704196800 * 1000000000.

Definition admin : Session :=
  {| username := Some "root"; role := Some "admin"; client_name := None |}.

Definition one_booth (l : string) : list ClientRow :=
  [ {| Clients.client_name := "acme"; Clients.location := l; Clients.booth := "Booth 1" |} ].

Definition two_booths (l : string) : list ClientRow :=
  [ {| Clients.client_name := "acme"; Clients.location := l; Clients.booth := "Booth 1" |};
    {| Clients.client_name := "acme"; Clients.location := l; Clients.booth := "Booth 2" |} ].

(** Booth 1 reported high CO2 half an hour ago; Booth 2 has no file. *)
Definition sibling_absent : World :=
  {| worksheet := None;
     files := {[ "data/Sydney_Booth1.csv" :=
                   csv [raw_row "2024-01-02 11:30:00" "22.5" "45" "1500.7" "1"] ]};
     df_clients := two_booths "Sydney";
     now := noon |}.

(** Both booths have data; only Booth 1 is over a threshold. *)
Definition both_present : World :=
  {| worksheet := None;
     files := {[ "data/Sydney_Booth1.csv" :=
                   csv [raw_row "2024-01-02 11:30:00" "22.5" "45" "1500.7" "1"];
                 "data/Sydney_Booth2.csv" :=
                   csv [raw_row "2024-01-02 09:00:00" "21" "40" "600" "0"] ]};
     df_clients := two_booths "Sydney";
     now := noon |}.

(** The only booth has no file. *)
Definition nothing_recorded : World :=
  {| worksheet := None;
     files := ∅;
     df_clients := one_booth "Perth";
     now := noon |}.

(** Booth 1 is warm; the file of Booth 2 has a header and no record. *)
Definition sibling_empty : World :=
  {| worksheet := None;
     files := {[ "data/Perth_Booth1.csv" :=
                   csv [raw_row "2024-01-02 11:50:00" "27.5" "45" "700" "1"];
                 "data/Perth_Booth2.csv" := csv [] ]};
     df_clients := two_booths "Perth";
     now := noon |}.

(** Booth 1 reported ten minutes ago; Booth 2 never reported. *)
Definition never_seen : World :=
  {| worksheet := None;
     files := {[ "data/Hobart_Booth1.csv" :=
                   csv [raw_row "2024-01-02 11:50:00" "21" "45" "700" "1"] ]};
     df_clients := two_booths "Hobart";
     now := noon |}.

(** The file of the only booth has no time column. *)
Definition no_time_column : World :=
  {| worksheet := None;
     files := {[ "data/Perth_Booth1.csv" :=
                   Ok {| columns := ["temp_c"; "co2_ppm"];
                         rows := [ {[ "temp_c" := CStr "21"; "co2_ppm" := CStr "700" ]} ] |} ]};
     df_clients := one_booth "Perth";
     now := noon |}.

Definition history_raw : DataFrame :=
  {| columns := required_cols;
     rows := [raw_row "2023-12-31 10:00:00" "20.0" "40" "700" "1";
              raw_row "2023-12-31 11:00:00" "22.0" "44" "700" "1";
              raw_row "2024-01-02 11:55:00" "23.0" "45" "700" "1"] |}.


(** A reading of two days ago without humidity, and a latest reading
    without temperature. *)
Definition gaps : World :=
  {| worksheet := None;
     files := {[ "data/Perth_Booth1.csv" :=
                   csv [raw_row "2023-12-31 12:00:00" "20" "" "700" "1";
                        raw_row "2024-01-02 11:55:00" "" "50" "700" "1"] ]};
     df_clients := one_booth "Perth";
     now := noon |}.

(** Two readings of the day before yesterday, 20.0 and 22.0, and a
    latest reading of 23.0. *)
Definition history : World :=
  {| worksheet := None;
     files := {[ "data/Perth_Booth1.csv" := Ok history_raw ]};
     df_clients := one_booth "Perth";
     now := noon |}.


(** A reading as normalization leaves it. *)
Definition reading_at (t : Z) (temp_c humidity_pct co2_ppm : Q) (pir_state : string) : Row :=
  {[ "time" := CTime t; "temp_c" := CNum temp_c; "humidity_pct" := CNum humidity_pct;
     "co2_ppm" := CNum co2_ppm; "pir_state" := CStr pir_state ]}.

(** [history_raw], normalized. *)
Definition history_frame : DataFrame :=
  {| columns := required_cols;
     rows := [reading_at (noon - 50 * hour_ns) 20 40 700 "1";
              reading_at (noon - 49 * hour_ns) 22 44 700 "1";
              reading_at (noon - 300 * 1000000000) 23 45 700 "1"] |}.


Definition historical_context_of (r : result BoothResult) : option (gmap string cell) :=
  match r with
  | Ok (BoothRendered page) => Some (historical_context page)
  | _ => None
  end.

End Scenario.


(** ** The other routes *)

Inductive LocationResult :=
| LocationRedirect (endpoint : string)
| LocationDenied
| LocationPage (locations : list string) (location_name : string) (booths : list string).

(** [session['role']]: the value, or a KeyError when the session has none. *)
Definition session_role (session : Session) : result string :=
  match role session with Some r => Ok r | None => Raise (KeyError "role") end.

(** Lines 200-209. *)
Definition location (W : World) (session : Session) (loc_name : string)
  : result LocationResult :=
  if bool_decide (username session = None) then Ok (LocationRedirect "login") else
  let user_locations := get_locations (df_clients W) (client_filter session) in
  r <- session_role session;
  if bool_decide (r = "client") && negb (bool_decide (loc_name ∈ user_locations))
  then Ok LocationDenied
  else Ok (LocationPage user_locations loc_name (booths_of (df_clients W) loc_name)).

(** [df.dropna(subset=cols)]: the rows that are null in none of the
    columns. A column that the frame does not have is a KeyError; pandas
    names in it all the columns that are missing, here it carries the first
    of them. *)
Definition dropna (subset : list string) (df : DataFrame) : result (list Row) :=
  _ <- for_in subset
         (λ c (_ : unit), if bool_decide (c ∈ columns df) then Ok () else Raise (KeyError c)) ();
  Ok (filter (λ r, Forall (λ c, isna (Series_get r c) = false) subset) (rows df)).

(** Line 292 of [update_graph_live]: the readings that are plotted. *)
Definition plot_df (selected_metric : string) (df : DataFrame) : result (list Row) :=
  rs <- dropna ["time"; selected_metric] df;
  Ok (tail_rows 100 rs).

(** ** Frames as the library builds them *)




(** ** The loops of [dashboard], in closed form

    What lines 155-166 compute, written without the loops; the loops are
    proved to compute it. *)

(** Whether the reading crosses one of the two thresholds. *)
Definition over_threshold (r : Row) : bool :=
  match Series_get r "co2_ppm" with CNum q => Qgtb q 1000 | _ => false end
  || match Series_get r "temp_c" with CNum t => Qgtb t 25 | _ => false end.

(** The last reading of a booth, if the booth has data. *)
Definition last_reading (pd : Pandas) (W : World) (l b : string) : option Row :=
  match load_sensor_data pd W l b with
  | Ok (Some df) => if empty df then None else last (rows df)
  | _ => None
  end.

(** Whether the booth counts as alerting at line 164. *)
Definition booth_alerting (pd : Pandas) (W : World) (l b : string) : bool :=
  match last_reading pd W l b with Some r => over_threshold r | None => false end.

(** The number that line 166 stores for a location. *)
Definition alerting_booths (pd : Pandas) (W : World) (l : string) : nat :=
  length (filter (λ b, booth_alerting pd W l b = true) (booths_of (df_clients W) l)).

(** The booths of the locations, in the order in which the loops visit them. *)
Definition visits (W : World) (ls : list string) : list (string * string) :=
  l ← ls; (λ b, (l, b)) <$> booths_of (df_clients W) l.

(** The locals after the inner loop over the booths [bs] of [l]. *)
Definition after_booths (pd : Pandas) (W : World) (l : string) (bs : list string)
    (s : Locals) : Locals :=
  {| loc := loc s;
     booth_name := match last bs with Some b => Some b | None => booth_name s end;
     latest := match last (omap (last_reading pd W l) bs) with
               | Some r => Some r
               | None => latest s
               end;
     alert_count :=
       (alert_count s + length (filter (λ b, booth_alerting pd W l b = true) bs))%nat;
     location_summaries := location_summaries s |}.

(** The last reading of a visited booth. *)
Definition visited_reading (pd : Pandas) (W : World) (p : string * string) : option Row :=
  last_reading pd W p.1 p.2.

(** The locals after the loops over the locations [ls]. *)
Definition after_locations (pd : Pandas) (W : World) (ls : list string) (s : Locals)
  : Locals :=
  {| loc := match last ls with Some l => Some l | None => loc s end;
     booth_name := match last (visits W ls) with
                   | Some p => Some p.2
                   | None => booth_name s
                   end;
     latest := match last (omap (visited_reading pd W) (visits W ls)) with
               | Some r => Some r
               | None => latest s
               end;
     alert_count := match last ls with
                    | Some l => alerting_booths pd W l
                    | None => alert_count s
                    end;
     location_summaries :=
       foldl (λ m l, <[l := alerting_booths pd W l]> m) (location_summaries s) ls |}.

(** Lines 187-196: the KPI block, or nothing when the spotlight booth has
    no frame. *)
Definition spotlight_kpi (pd : Pandas) (W : World) : option KpiData :=
  match load_sensor_data pd W "Adelaide" "Booth A" with
  | Ok (Some df) => if negb (empty df) then Some (kpi_of df) else None
  | _ => None
  end.

(** Lines 176-184 for a reading whose time is a timestamp or is absent. *)
Definition status_entry (W : World) (l b : string) (r : Row) : SystemStatus :=
  match r !! "time" with
  | Some (CTime t) =>
      {| status_location := l; status_booth := b; last_seen := strftime_Ymd_HM t;
         status := if bool_decide (hour_ns < now W - t) then "Offline" else "Online" |}
  | _ =>
      {| status_location := l; status_booth := b; last_seen := "Never";
         status := "Offline" |}
  end.

(** ** The historical context, in closed form *)







(** A row that [dropna(subset=['time', metric])] keeps. *)
Definition complete (metric : string) (r : Row) : Prop :=
  Forall (λ c, isna (Series_get r c) = false) ["time"; metric].

(** ** More requests *)

Module Cases.
Import Scenario.

(** A client of the table, a client the table does not know, and a
    client session without a client name. *)
Definition tenant : Session :=
  {| username := Some "ann"; role := Some "client"; client_name := Some "acme" |}.

Definition stranger : Session :=
  {| username := Some "bob"; role := Some "client"; client_name := Some "globex" |}.

Definition nameless : Session :=
  {| username := Some "eve"; role := Some "client"; client_name := None |}.

(** The remote sheet holds the readings of [history_raw]; so does the
    file of the only booth of the table. *)
Definition live : World :=
  {| worksheet := Some {| get_all_records := Ok history_raw |};
     files := {[ "data/Perth_Booth1.csv" := Ok history_raw ]};
     df_clients := one_booth "Perth";
     now := noon |}.


End Cases.

(** * Properties *)

(** ** Normalization in closed form *)

Section steps.
Context (pd : Pandas).

Lemma elem_of_snoc_ne (cols : list string) c x :
  x ≠ c → x ∈ cols ++ [c] ↔ x ∈ cols.
Proof. rewrite elem_of_app, list_elem_of_singleton. tauto. Qed.

Lemma fill_step_foldl_ext cols c cs (r : Row) :
  c ∉ cs →
  foldl (fill_step (cols ++ [c])) r cs = foldl (fill_step cols) r cs.
Proof.
  revert r. induction cs as [|x cs IH]; intros r Hc; [done|].
  apply not_elem_of_cons in Hc as [Hne Hc]. simpl.
  rewrite IH by done. f_equal. unfold fill_step.
  by rewrite (bool_decide_ext _ _ (elem_of_snoc_ne cols c x (not_eq_sym Hne))).
Qed.

Lemma filter_fresh_snoc (cols : list string) c (cs : list string) :
  c ∉ cs →
  filter (λ x, x ∉ cols ++ [c]) cs = filter (λ x, x ∉ cols) cs.
Proof.
  induction cs as [|x cs IH]; intros Hc; [done|].
  apply not_elem_of_cons in Hc as [Hne Hc].
  pose proof (elem_of_snoc_ne cols c x (not_eq_sym Hne)) as Hx.
  rewrite !filter_cons, IH by done.
  destruct (decide (x ∉ cols ++ [c])), (decide (x ∉ cols)); tauto.
Qed.

(** Step 1 as one map over the rows. *)
Lemma ensure_loop cs df :
  NoDup cs →
  for_in cs (λ col df, if bool_decide (col ∈ columns df) then Ok df
                       else Ok (assign_scalar col CNone df)) df
  = Ok {| columns := columns df ++ filter (λ c, c ∉ columns df) cs;
          rows := (λ r, foldl (fill_step (columns df)) r cs) <$> rows df |}.
Proof.
  revert df. induction cs as [|c cs IH]; intros df Hnd.
  { simpl. rewrite app_nil_r, list_fmap_id. by destruct df. }
  apply NoDup_cons in Hnd as [Hc Hnd]. simpl.
  destruct (decide (c ∈ columns df)) as [Hin|Hin].
  - rewrite bool_decide_eq_true_2 by done. simpl. rewrite IH by done.
    rewrite filter_cons_False by naive_solver. do 2 f_equal.
    apply list_fmap_ext. intros _ r _. unfold fill_step at 3.
    by rewrite bool_decide_eq_true_2.
  - rewrite bool_decide_eq_false_2 by done. simpl. rewrite IH by done.
    unfold assign_scalar; simpl. rewrite bool_decide_eq_false_2 by done.
    rewrite filter_cons_True by done. f_equal. f_equal.
    + by rewrite <-app_assoc, filter_fresh_snoc.
    + rewrite <-list_fmap_compose. apply list_fmap_ext. intros _ r _. simpl.
      rewrite fill_step_foldl_ext by done. unfold fill_step at 3.
      by rewrite bool_decide_eq_false_2.
Qed.

Lemma ensure_required_cols_eq df :
  ensure_required_cols df
  = Ok {| columns := columns df ++ filter (λ c, c ∉ columns df) required_cols;
          rows := fill_row (columns df) <$> rows df |}.
Proof. apply ensure_loop. unfold required_cols. compute_done. Qed.

(** Step 2, on a frame that has the columns. *)
Lemma numeric_loop cs df :
  (∀ c, c ∈ cs → c ∈ columns df) →
  for_in cs (λ col df, if bool_decide (col ∈ columns df)
                       then map_column (to_numeric pd) col df else Ok df) df
  = Ok {| columns := columns df;
          rows := (λ r, foldl (λ r c, alter (to_numeric pd) c r) r cs) <$> rows df |}.
Proof.
  revert df. induction cs as [|c cs IH]; intros df Hcs.
  { simpl. rewrite list_fmap_id. by destruct df. }
  simpl. unfold map_column.
  rewrite !bool_decide_eq_true_2 by (apply Hcs; left). simpl.
  rewrite IH by (intros; simpl; apply Hcs; by right). simpl.
  by rewrite <-list_fmap_compose.
Qed.

Lemma required_in_completed (cols : list string) c :
  c ∈ required_cols → c ∈ cols ++ filter (λ c, c ∉ cols) required_cols.
Proof.
  intros Hc. rewrite elem_of_app, list_elem_of_filter.
  destruct (decide (c ∈ cols)); tauto.
Qed.

Lemma numeric_cols_required c : c ∈ numeric_cols → c ∈ required_cols.
Proof.
  intros H. unfold numeric_cols in H.
  repeat (apply elem_of_cons in H as [->|H]); try compute_done.
  by apply elem_of_nil in H.
Qed.

(** Lines 87-108 as one map over the rows, followed by the sort. *)
Lemma normalize_eq df :
  normalize pd df
  = Ok {| columns := columns df ++ filter (λ c, c ∉ columns df) required_cols;
          rows := sort_rows pd (normalize_row pd (columns df) <$> rows df) |}.
Proof.
  unfold normalize. rewrite ensure_required_cols_eq. simpl.
  unfold enforce_numeric. rewrite numeric_loop; simpl.
  2:{ intros c Hc. by apply required_in_completed, numeric_cols_required. }
  assert ("time" ∈ columns df ++ filter (λ c, c ∉ columns df) required_cols) as Ht
    by (apply required_in_completed; compute_done).
  unfold enforce_datetime, map_column, sort_values_by_time. simpl.
  repeat (rewrite bool_decide_eq_true_2 by exact Ht; simpl).
  by rewrite <-!list_fmap_compose.
Qed.

End steps.

(** ** What normalization does to a row *)

Section rows.
Context (pd : Pandas).

Lemma fill_foldl_lookup cols cs (r : Row) k :
  foldl (fill_step cols) r cs !! k
  = if bool_decide (k ∈ cs ∧ k ∉ cols) then Some CNone else r !! k.
Proof.
  revert r. induction cs as [|c cs IH]; intros r; cbn [foldl].
  { case_bool_decide as H; [|done]. destruct H as [H _]. by apply elem_of_nil in H. }
  rewrite IH. unfold fill_step.
  destruct (decide (c = k)) as [->|Hne].
  - repeat case_bool_decide; rewrite ?lookup_insert_eq; try done;
      exfalso; rewrite elem_of_cons in *; tauto.
  - repeat case_bool_decide; rewrite ?lookup_insert_ne by done; try done;
      exfalso; rewrite elem_of_cons in *; intuition congruence.
Qed.

Lemma fill_row_lookup cols (r : Row) k :
  fill_row cols r !! k
  = if bool_decide (k ∈ required_cols ∧ k ∉ cols) then Some CNone else r !! k.
Proof. apply fill_foldl_lookup. Qed.

Lemma alter_foldl_lookup (f : cell → cell) cs (r : Row) k :
  NoDup cs →
  foldl (λ r c, alter f c r) r cs !! k
  = if bool_decide (k ∈ cs) then f <$> r !! k else r !! k.
Proof.
  revert r. induction cs as [|c cs IH]; intros r Hnd; cbn [foldl].
  { case_bool_decide as H; [|done]. by apply elem_of_nil in H. }
  apply NoDup_cons in Hnd as [Hc Hnd]. rewrite IH by done.
  destruct (decide (c = k)) as [->|Hne].
  - rewrite lookup_alter_eq. repeat case_bool_decide; try done;
      exfalso; rewrite elem_of_cons in *; tauto.
  - rewrite lookup_alter_ne by done. repeat case_bool_decide; try done;
      exfalso; rewrite elem_of_cons in *; intuition congruence.
Qed.

Lemma numeric_row_lookup (r : Row) k :
  numeric_row pd r !! k
  = if bool_decide (k ∈ numeric_cols) then to_numeric pd <$> r !! k else r !! k.
Proof. apply alter_foldl_lookup. unfold numeric_cols. compute_done. Qed.

Lemma normalize_row_time cols (r : Row) :
  normalize_row pd cols r !! "time"
  = to_datetime pd <$> (if bool_decide ("time" ∈ cols) then r !! "time" else Some CNone).
Proof.
  unfold normalize_row. rewrite lookup_alter_eq, numeric_row_lookup.
  rewrite (bool_decide_eq_false_2 ("time" ∈ numeric_cols)) by compute_done.
  rewrite fill_row_lookup. f_equal.
  destruct (decide ("time" ∈ cols)) as [H|H].
  - rewrite (bool_decide_eq_true_2 _ H), bool_decide_eq_false_2; [done|tauto].
  - rewrite (bool_decide_eq_false_2 _ H), bool_decide_eq_true_2; [done|].
    split; [compute_done|done].
Qed.

Lemma normalize_row_numeric cols (r : Row) c :
  c ∈ numeric_cols →
  normalize_row pd cols r !! c
  = to_numeric pd <$> (if bool_decide (c ∈ cols) then r !! c else Some CNone).
Proof.
  intros Hc. unfold normalize_row.
  assert (c ≠ "time") as Hne by (intros ->; revert Hc; compute_done).
  rewrite lookup_alter_ne by done.
  rewrite numeric_row_lookup, (bool_decide_eq_true_2 _ Hc), fill_row_lookup. f_equal.
  destruct (decide (c ∈ cols)) as [H|H].
  - rewrite (bool_decide_eq_true_2 _ H), bool_decide_eq_false_2; [done|tauto].
  - rewrite (bool_decide_eq_false_2 _ H), bool_decide_eq_true_2; [done|].
    split; [by apply numeric_cols_required|done].
Qed.


Lemma to_numeric_is_numeric c : is_numeric (to_numeric pd c).
Proof. destruct c; simpl; try done. by destruct (parse_float pd s). Qed.

Lemma to_datetime_is_datetime c : is_datetime (to_datetime pd c).
Proof. destruct c; simpl; try done; by destruct (parse_datetime pd _). Qed.




(** The docstring's "enforce numeric types": after the three steps a
    sensor column holds numbers and NaN only, the time column timestamps
    and NaT only. *)
Lemma normalize_row_typed cols r : typed_row (normalize_row pd cols r).
Proof.
  split.
  - intros c v Hc. rewrite normalize_row_numeric by done.
    destruct (if bool_decide _ then _ else _); simpl; [|done].
    intros [= <-]. apply to_numeric_is_numeric.
  - intros v. rewrite normalize_row_time.
    destruct (if bool_decide _ then _ else _); simpl; [|done].
    intros [= <-]. apply to_datetime_is_datetime.
Qed.


End rows.

(** ** The sort *)

Lemma keyed_elem rs t r : (t, r) ∈ keyed rs ↔ r ∈ rs ∧ time_of r = Some t.
Proof.
  unfold keyed. rewrite list_elem_of_omap. split.
  - intros (r' & Hin & Heq). destruct (time_of r') eqn:E; simplify_eq/=. done.
  - intros [Hin Ht]. exists r. split; [done|]. by rewrite Ht.
Qed.

Lemma keyed_unkeyed_perm rs : (snd <$> keyed rs) ++ unkeyed rs ≡ₚ rs.
Proof.
  unfold keyed, unkeyed. induction rs as [|r rs IH]; [done|].
  csimpl. destruct (time_of r) eqn:E; simpl.
  - rewrite filter_cons_False by (by rewrite E). by f_equiv.
  - rewrite filter_cons_True by done. rewrite <-Permutation_middle. by f_equiv.
Qed.


Lemma times_app rs1 rs2 : times (rs1 ++ rs2) = times rs1 ++ times rs2.
Proof. apply omap_app. Qed.

Lemma times_all_missing rs : Forall (λ r, time_of r = None) rs → times rs = [].
Proof. unfold times. induction 1 as [|r rs Hr _ IH]; [done|]. csimpl. by rewrite Hr. Qed.




Lemma unkeyed_missing rs : Forall (λ r, time_of r = None) (unkeyed rs).
Proof. apply Forall_forall. intros r Hr. by apply list_elem_of_filter in Hr as [? _]. Qed.





Lemma keyed_own_key rs : Forall own_key (keyed rs).
Proof. apply Forall_forall. intros [t r] H. by apply keyed_elem in H as [_ ?]. Qed.

Lemma own_key_times ps : Forall own_key ps → times ps.*2 = ps.*1.
Proof.
  unfold times. induction 1 as [|[t r] ps Hp _ IH]; [done|].
  csimpl. unfold own_key in Hp. simpl in Hp. rewrite Hp. csimpl. f_equal. exact IH.
Qed.

Lemma own_key_present ps : Forall own_key ps → Forall (λ r, is_Some (time_of r)) ps.*2.
Proof.
  induction 1 as [|[t r] ps Hp _ IH]; constructor; [|done].
  unfold own_key in Hp. simpl in *. by rewrite Hp.
Qed.

Lemma key_le_fst ps : StronglySorted key_le ps → StronglySorted Z.le ps.*1.
Proof. apply StronglySorted_fmap. by intros [] []. Qed.

Section sorting.
Context (pd : Pandas) (Hpd : pandas_contract pd).

Lemma quicksort_own_key rs : Forall own_key (quicksort pd (keyed rs)).
Proof.
  pose proof (keyed_own_key rs) as H. by rewrite <-(sort_perm pd Hpd) in H.
Qed.

Lemma sort_rows_perm rs : sort_rows pd rs ≡ₚ rs.
Proof.
  unfold sort_rows. rewrite (sort_perm pd Hpd). apply keyed_unkeyed_perm.
Qed.

Lemma times_sort_rows rs : times (sort_rows pd rs) = (quicksort pd (keyed rs)).*1.
Proof.
  unfold sort_rows. rewrite times_app, (times_all_missing (unkeyed rs)), app_nil_r
    by apply unkeyed_missing.
  apply own_key_times, quicksort_own_key.
Qed.

Lemma sort_rows_sorted rs : StronglySorted Z.le (times (sort_rows pd rs)).
Proof. rewrite times_sort_rows. apply key_le_fst, (sort_sorted pd Hpd). Qed.

Lemma sort_rows_na_last rs : na_last (sort_rows pd rs).
Proof.
  exists (quicksort pd (keyed rs)).*2, (unkeyed rs).
  split; [done|]. split; [|apply unkeyed_missing].
  apply own_key_present, quicksort_own_key.
Qed.

(** The frame that normalization returns is normalized. *)
Lemma normalize_normalized df out :
  normalize pd df = Ok out → normalized out.
Proof.
  rewrite normalize_eq. intros [= <-]. split; simpl.
  - intros c. apply required_in_completed.
  - rewrite sort_rows_perm. apply Forall_fmap, Forall_forall.
    intros r _. apply normalize_row_typed.
  - apply sort_rows_na_last.
  - apply sort_rows_sorted.
Qed.

End sorting.




Section fixed_points.
Context (pd : Pandas) (Hpd : pandas_contract pd).





End fixed_points.

(** ** The reference library meets the contract *)

Global Instance key_le_trans : Transitive key_le.
Proof. intros x y z. unfold key_le. lia. Qed.

Global Instance key_le_total : Total key_le.
Proof. intros x y. unfold key_le. lia. Qed.

Lemma reference_contract : pandas_contract Reference.pd.
Proof.
  split; simpl.
  - apply merge_sort_Permutation.
  - intros l. apply StronglySorted_merge_sort; apply _.
  - reflexivity.
Qed.

(** ** Alerts *)

Lemma Qgtb_lt a b : Qgtb a b = true ↔ (b < a)%Q.
Proof.
  unfold Qgtb. rewrite negb_true_iff, <-not_true_iff_false, Qle_bool_iff.
  split; [apply Qnot_le_lt|apply Qlt_not_le].
Qed.

(** [int] cuts towards zero: on a value that is not negative it is the
    integer part. *)
Lemma Qtrunc_spec q :
  (0 <= q)%Q → (inject_Z (Qtrunc q) <= q)%Q ∧ (q < inject_Z (Qtrunc q) + 1)%Q.
Proof.
  destruct q as [n d]. unfold Qle, Qlt, Qtrunc. simpl. intros Hn.
  assert (0 ≤ n) by lia. rewrite Z.quot_div_nonneg by lia.
  pose proof (Z.div_mod n (Z.pos d) ltac:(lia)).
  pose proof (Z.mod_pos_bound n (Z.pos d) ltac:(lia)).
  split; nia.
Qed.

Lemma typed_get_numeric r c :
  typed_row r → c ∈ numeric_cols →
  Series_get r c = CNone ∨ is_numeric (Series_get r c).
Proof.
  intros [Hnum _] Hc. unfold Series_get.
  destruct (r !! c) as [v|] eqn:E; simpl; [right; eauto|by left].
Qed.

Lemma alerts_log_eq s l b r :
  loc s = Some l → booth_name s = Some b → latest s = Some r → typed_row r →
  alerts_log s
  = Ok (co2_rule l b (Series_get r "co2_ppm") ++ temp_rule l b (Series_get r "temp_c")).
Proof.
  intros Hl Hb Hr Ht. unfold alerts_log. rewrite Hl, Hb, Hr. simpl.
  destruct (typed_get_numeric r "co2_ppm" Ht) as [->|H1]; [compute_done| |];
    destruct (typed_get_numeric r "temp_c" Ht) as [->|H2]; try compute_done; simpl.
  - destruct (Series_get r "temp_c"); try done; simpl.
    by destruct (Qgtb q 25).
  - destruct (Series_get r "co2_ppm"); try done; simpl.
    by destruct (Qgtb q 1000).
  - destruct (Series_get r "co2_ppm"), (Series_get r "temp_c"); try done; simpl;
      repeat match goal with |- context [Qgtb ?q ?x] => destruct (Qgtb q x) end; done.
Qed.



Lemma Series_get_num (r : Row) k q : Series_get r k = CNum q ↔ r !! k = Some (CNum q).
Proof. unfold Series_get. destruct (r !! k); simpl; split; congruence. Qed.


(** ** Normalization *)






(** What [load_sensor_data] returns, when it returns a frame, is
    normalized and has a row. *)
Lemma load_sensor_data_normalized pd W l b df :
  pandas_contract pd →
  load_sensor_data pd W l b = Ok (Some df) → normalized df ∧ rows df ≠ [].
Proof.
  intros Hpd. unfold load_sensor_data.
  destruct (if _ && _ then _ else _) as [[raw|]|]; simpl; try done.
  destruct (empty raw) eqn:E; simpl; [done|].
  destruct (normalize pd raw) as [out|] eqn:Hn; simpl; [|done]. intros [= <-].
  split; [by eapply normalize_normalized|].
  rewrite normalize_eq in Hn. injection Hn as <-. simpl.
  intros Hnil.
  pose proof (sort_rows_perm pd Hpd (normalize_row pd (columns raw) <$> rows raw)) as Hp.
  rewrite Hnil in Hp. symmetry in Hp. apply Permutation_nil_r, fmap_nil_inv in Hp.
  unfold empty in E. by rewrite Hp in E.
Qed.

(** ** Fetching *)

Lemma remote_branch loc_name booth_name :
  is_remote loc_name booth_name ↔
  bool_decide (loc_name = "Adelaide") && bool_decide (remove_spaces booth_name = "BoothA") = true.
Proof.
  unfold is_remote. by rewrite andb_true_iff, !bool_decide_eq_true.
Qed.

(** C8. When the source of a booth is unavailable (the worksheet was never
    set up, reading it raises, the local file does not exist, or reading the
    file raises) [load_sensor_data] returns None and raises nothing. *)
Theorem unavailable_source_is_absent (pd : Pandas) (W : World) (loc_name booth_name : string) :
  unavailable W loc_name booth_name →
  load_sensor_data pd W loc_name booth_name = Ok None.
Proof.
  unfold load_sensor_data.
  intros [Hr Hw|ws e Hr Hw He|Hr Hf|e Hr Hf].
  - apply remote_branch in Hr as ->. unfold get_data_from_sheet. by rewrite Hw.
  - apply remote_branch in Hr as ->. unfold get_data_from_sheet. by rewrite Hw, He.
  - rewrite remote_branch, not_true_iff_false in Hr. by rewrite Hr, Hf.
  - rewrite remote_branch, not_true_iff_false in Hr. by rewrite Hr, Hf.
Qed.

(** The fetch as a whole raises nothing, whatever the sources do. *)
Lemma get_data_from_sheet_never_raises pd W : ∃ o, get_data_from_sheet pd W = Ok o.
Proof.
  unfold get_data_from_sheet. destruct (worksheet W) as [ws|]; [|by eexists].
  destruct (bind _ _); by eexists.
Qed.

Lemma load_sensor_data_never_raises pd W loc_name booth_name :
  ∃ o, load_sensor_data pd W loc_name booth_name = Ok o.
Proof.
  unfold load_sensor_data.
  assert (∃ o, (if bool_decide (loc_name = "Adelaide")
                   && bool_decide (remove_spaces booth_name = "BoothA")
                then get_data_from_sheet pd W
                else match files W !! csv_path loc_name (remove_spaces booth_name) with
                     | Some read_csv => try_except (Some <$> read_csv) (λ _, Ok None)
                     | None => Ok None
                     end) = Ok o) as [o ->].
  { destruct (_ && _); [apply get_data_from_sheet_never_raises|].
    destruct (files W !! _) as [[]|]; by eexists. }
  simpl. destruct o as [raw|]; [|by eexists].
  destruct (empty raw); simpl; [by eexists|].
  rewrite normalize_eq. by eexists.
Qed.


(** ** The status panel *)

(** What the panel says of a reading with a time: offline exactly when
    the reading is more than an hour old. *)
Lemma status_panel_seen W s l b r t :
  loc s = Some l → booth_name s = Some b → latest s = Some r →
  r !! "time" = Some (CTime t) →
  status_panel W s
  = Ok [{| status_location := l; status_booth := b; last_seen := strftime_Ymd_HM t;
           status := if bool_decide (hour_ns < now W - t) then "Offline" else "Online" |}].
Proof.
  intros Hl Hb Hr Ht. unfold status_panel. rewrite Hl, Hb, Hr. simpl.
  unfold Series_get. rewrite Ht. simpl. by case_bool_decide.
Qed.

(** A reading without a time is not reported as never seen: NaT is true
    in [if last_seen:], and refuses [strftime]. *)
Lemma status_panel_NaT W s r :
  latest s = Some r → r !! "time" = Some CNaT →
  loc s ≠ None → booth_name s ≠ None →
  status_panel W s = Raise ValueError.
Proof.
  intros Hr Ht Hl Hb. unfold status_panel. rewrite Hr. simpl.
  unfold Series_get. rewrite Ht. simpl.
  destruct (loc s); [|done]. by destruct (booth_name s).
Qed.

(** ** The historical context *)

Lemma historical_no_prior now df r :
  last (rows df) = Some r → yesterday_rows now (rows df) = [] →
  historical now df = Ok ∅.
Proof.
  intros Hr Hy. unfold historical, iloc_last. rewrite Hr. simpl. rewrite Hy.
  by case_bool_decide.
Qed.

(** ** The loops of [dashboard] *)

Lemma for_in_invariant {A S} (P : S → Prop) (body : A → S → result S) xs s0 s :
  (∀ x s s', P s → body x s = Ok s' → P s') →
  P s0 → for_in xs body s0 = Ok s → P s.
Proof.
  intros Hbody. revert s0. induction xs as [|x xs IH]; intros s0 H0; simpl.
  { by intros [= <-]. }
  destruct (body x s0) as [s1|] eqn:E; simpl; [|done]. eauto.
Qed.

Lemma for_in_total {A S} (P : S → Prop) (body : A → S → result S) xs s0 :
  (∀ x s, P s → ∃ s', body x s = Ok s' ∧ P s') →
  P s0 → ∃ s, for_in xs body s0 = Ok s ∧ P s.
Proof.
  intros Hbody. revert s0. induction xs as [|x xs IH]; intros s0 H0; simpl; [eauto|].
  destruct (Hbody x s0 H0) as (s1 & -> & H1). simpl. eauto.
Qed.

Lemma dashboard_booth_left_over pd W l b s s' :
  pandas_contract pd → is_Some (loc s) →
  left_over s → dashboard_booth pd W l b s = Ok s' →
  left_over s' ∧ loc s' = loc s.
Proof.
  intros Hpd Hloc Hs. unfold dashboard_booth.
  destruct (load_sensor_data pd W l b) as [[df|]|] eqn:E; simpl; [| |done].
  - destruct (empty df); simpl.
    + intros [= <-]. split; [|done]. intros r Hr. simpl in *.
      destruct (Hs r Hr) as (? & ? & ?). eauto.
    + apply (load_sensor_data_normalized pd W l b df Hpd) in E as [[_ Htyped _ _] _].
      unfold iloc_last. destruct (last (rows df)) as [row|] eqn:Hlast; simpl; [|done].
      destruct (exceeds _ _) as [c|]; simpl; [|done].
      destruct (if c then _ else _) as [a|]; simpl; [|done].
      intros [= <-]. split; [|done]. intros r [= <-]. simpl.
      split; [|eauto]. rewrite Forall_forall in Htyped.
      by apply Htyped, last_Some_elem_of.
  - intros [= <-]. split; [|done]. intros r Hr. simpl in *.
    destruct (Hs r Hr) as (? & ? & ?). eauto.
Qed.

Lemma dashboard_location_left_over pd W l s s' :
  pandas_contract pd →
  left_over s → dashboard_location pd W l s = Ok s' → left_over s'.
Proof.
  intros Hpd Hs. unfold dashboard_location.
  destruct (for_in _ _ _) as [s1|] eqn:E; simpl; [|done]. intros [= <-].
  apply (for_in_invariant (λ s, left_over s ∧ loc s = Some l)) in E as [H1 H2].
  - intros r Hr. simpl in *. destruct (H1 r Hr) as (? & ? & ?). eauto.
  - intros b s2 s3 [H1 H2] Hb.
    apply dashboard_booth_left_over in Hb as [H3 H4]; [|done|by rewrite H2|done].
    split; [done|congruence].
  - split; [|done]. intros r Hr. simpl in *. destruct (Hs r Hr) as (? & ? & ?). eauto.
Qed.

Lemma loops_left_over pd W (locations : list string) s :
  pandas_contract pd →
  for_in locations (dashboard_location pd W) locals0 = Ok s → left_over s.
Proof.
  intros Hpd. apply (for_in_invariant left_over).
  - intros l s1 s2. by apply dashboard_location_left_over.
  - by intros r.
Qed.

(** ** The routes, run on concrete requests *)

Import Scenario.

(** C1. The alerts log and the status panel are computed once, after both
    loops, from the variables the loops leave behind. With Booth 1 over the
    CO2 threshold and Booth 2 without a file, the alert of Booth 1 is
    logged under the name of Booth 2 and Booth 1 gets no status; with a
    file for both booths, the alert of Booth 1 is not logged at all. The
    count per location, which is computed inside the loop, is 1 in both
    requests. *)
Theorem alerts_and_status_after_the_loops :
  dashboard Reference.pd sibling_absent admin
  = Ok (DashboardPage ["Sydney"] {[ "Sydney" := 1%nat ]} None
          [HighCO2 "Sydney" "Booth 2" 1500]
          [{| status_location := "Sydney"; status_booth := "Booth 2";
              last_seen := "2024-01-02 11:30"; status := "Online" |}])
  ∧ load_sensor_data Reference.pd sibling_absent "Sydney" "Booth 2" = Ok None
  ∧ dashboard Reference.pd both_present admin
    = Ok (DashboardPage ["Sydney"] {[ "Sydney" := 1%nat ]} None
            []
            [{| status_location := "Sydney"; status_booth := "Booth 2";
                last_seen := "2024-01-02 09:00"; status := "Offline" |}]).
Proof. repeat split; vm_compute; reflexivity. Qed.

(** Whatever the number of booths, the log gets at most one event of
    each kind and the panel exactly one entry. *)
Lemma alerts_log_at_most_two s evs : alerts_log s = Ok evs → (length evs ≤ 2)%nat.
Proof.
  unfold alerts_log. destruct (latest s) as [r|]; simpl; [|done].
  destruct (exceeds (Series_get r "co2_ppm") 1000) as [[]|]; simpl; [| |done].
  - destruct (loc s), (booth_name s); simpl; try done.
    destruct (int_of_cell _); simpl; [|done].
    destruct (exceeds (Series_get r "temp_c") 25) as [[]|]; simpl; [| |done].
    + destruct (Series_get r "temp_c"); simpl; try done. intros [= <-]. simpl. lia.
    + intros [= <-]. simpl. lia.
  - destruct (exceeds (Series_get r "temp_c") 25) as [[]|]; simpl; [| |done].
    + destruct (loc s), (booth_name s); simpl; try done.
      destruct (Series_get r "temp_c"); simpl; try done. intros [= <-]. simpl. lia.
    + intros [= <-]. simpl. lia.
Qed.

Lemma status_panel_one_entry W s st : status_panel W s = Ok st → length st = 1%nat.
Proof.
  unfold status_panel. destruct (latest s) as [r|]; simpl; [|done].
  destruct (truthy _).
  - destruct (now_minus _ _); simpl; [|done].
    destruct (loc s), (booth_name s); simpl; try done.
    destruct (strftime _); simpl; [|done]. by intros [= <-].
  - destruct (loc s), (booth_name s); simpl; try done. by intros [= <-].
Qed.

(** C3. A booth that never reported is not shown as never seen. With
    Booth 1 seen ten minutes ago and Booth 2 without any reading, the one
    status entry is for Booth 2 and says that it was seen ten minutes ago
    and is online. *)
Theorem never_seen_booth_shown_online :
  load_sensor_data Reference.pd never_seen "Hobart" "Booth 2" = Ok None
  ∧ dashboard Reference.pd never_seen admin
    = Ok (DashboardPage ["Hobart"] {[ "Hobart" := 0%nat ]} None
            []
            [{| status_location := "Hobart"; status_booth := "Booth 2";
                last_seen := "2024-01-02 11:50"; status := "Online" |}]).
Proof. split; vm_compute; reflexivity. Qed.

(** The same defect when the file of the only booth has no time column:
    the request fails. *)
Lemma missing_time_fails_the_request :
  dashboard Reference.pd no_time_column admin = Raise ValueError.
Proof. vm_compute. reflexivity. Qed.

(** The text of [last_seen]: sixteen characters, [YYYY-MM-DD HH:MM]. *)
Lemma strftime_Ymd_HM_shape t :
  ∃ y m d, civil_from_days (t / day_ns) = (y, m, d)
    ∧ strftime_Ymd_HM t
      = pad4 y +:+ "-" +:+ pad2 m +:+ "-" +:+ pad2 d +:+ " " +:+ strftime_HM t
    ∧ String.length (strftime_Ymd_HM t) = 16%nat.
Proof.
  unfold strftime_Ymd_HM. destruct (civil_from_days (t / day_ns)) as [[y m] d].
  exists y, m, d. done.
Qed.

(** The boundary of the status rule, on a reading that has a time: an
    hour old is online, an hour and a second old is offline. *)
Lemma status_boundary W s l b r t :
  loc s = Some l → booth_name s = Some b → latest s = Some r →
  r !! "time" = Some (CTime t) →
  (now W = t + hour_ns →
   status_panel W s
   = Ok [{| status_location := l; status_booth := b; last_seen := strftime_Ymd_HM t;
            status := "Online" |}])
  ∧ (now W = t + hour_ns + 1000000000 →
     status_panel W s
     = Ok [{| status_location := l; status_booth := b; last_seen := strftime_Ymd_HM t;
              status := "Offline" |}]).
Proof.
  intros Hl Hb Hr Ht. rewrite (status_panel_seen W s l b r t) by done.
  split; intros ->.
  - rewrite bool_decide_eq_false_2; [done|lia].
  - rewrite bool_decide_eq_true_2; [done|lia].
Qed.

(** A request in which no booth has data: nothing binds [latest], and the
    first statement after the loops fails. *)
Lemma no_data_anywhere_raises pd W session :
  username session ≠ None →
  (∀ l b, load_sensor_data pd W l b = Ok None) →
  dashboard pd W session = Raise (UnboundLocalError "latest").
Proof.
  intros Hu Hload. unfold dashboard. rewrite bool_decide_eq_false_2 by done.
  destruct (for_in_total (λ s, latest s = None) (dashboard_location pd W)
              (get_locations (df_clients W) (client_filter session)) locals0)
    as (s & -> & Hs); [|done|].
  - intros l s Hs. unfold dashboard_location.
    destruct (for_in_total (λ s, latest s = None) (dashboard_booth pd W l)
                (booths_of (df_clients W) l)
                {| loc := Some l; booth_name := booth_name s; latest := latest s;
                   alert_count := 0; location_summaries := location_summaries s |})
      as (s1 & -> & Hs1); [|done|by eexists].
    intros b s2 Hs2. unfold dashboard_booth. rewrite Hload. simpl. by eexists.
  - simpl. unfold alerts_log. by rewrite Hs.
Qed.

(** C5. A request in which no booth has data raises an error, and a booth
    whose file holds no record is given the alert of its sibling. *)
Theorem no_data_is_not_first_class :
  dashboard Reference.pd nothing_recorded admin = Raise (UnboundLocalError "latest")
  ∧ load_sensor_data Reference.pd sibling_empty "Perth" "Booth 2" = Ok None
  ∧ dashboard Reference.pd sibling_empty admin
    = Ok (DashboardPage ["Perth"] {[ "Perth" := 1%nat ]} None
            [HighTemp "Perth" "Booth 2" (55 # 2)]
            [{| status_location := "Perth"; status_booth := "Booth 2";
                last_seen := "2024-01-02 11:50"; status := "Online" |}]).
Proof. repeat split; vm_compute; reflexivity. Qed.

(** C4. A metric without a present value is not left out of the
    historical context: with one reading older than a day that has no
    humidity, and a latest reading that has no temperature, both keys are
    there, and both are NaN. *)
Theorem historical_context_keeps_nan :
  historical_context_of (booth Reference.pd gaps admin "Perth" "Booth 1")
  = Some {[ "temp_change" := CNaN; "hum_change" := CNaN ]}.
Proof. vm_compute. reflexivity. Qed.

(** The example of the specification: 20.0 and 22.0 the day before, 23.0
    now, a change of 2.0. *)
Lemma historical_context_example :
  ∃ d, historical_context_of (booth Reference.pd history admin "Perth" "Booth 1")
       ≫= (.!! "temp_change") = Some (CNum d) ∧ (d == 2)%Q.
Proof. eexists. split; [vm_compute; reflexivity|reflexivity]. Qed.


(** ** Instances of the theorems *)





Lemma unavailable_source_is_absent_witness :
  unavailable nothing_recorded "Perth" "Booth 1"
  ∧ load_sensor_data Reference.pd nothing_recorded "Perth" "Booth 1" = Ok None.
Proof.
  assert (unavailable nothing_recorded "Perth" "Booth 1") as H.
  { apply local_missing; [|reflexivity]. intros [H _]. discriminate H. }
  split; [exact H|].
  exact (unavailable_source_is_absent Reference.pd nothing_recorded "Perth" "Booth 1" H).
Defined.




(** * The rest of the routes *)

(** * Further properties *)

(** ** The topology *)

Lemma unique_foldl `{EqDecision A} (l acc : list A) :
  let res := foldl (λ acc x, if bool_decide (x ∈ acc) then acc else acc ++ [x]) acc l in
  (NoDup acc → NoDup res) ∧ (∀ x, x ∈ res ↔ x ∈ acc ∨ x ∈ l).
Proof.
  revert acc. induction l as [|y l IH]; intros acc; simpl.
  { split; [done|]. intros x. rewrite elem_of_nil. tauto. }
  destruct (IH (if bool_decide (y ∈ acc) then acc else acc ++ [y])) as [IH1 IH2].
  split.
  - intros Hnd. apply IH1. case_bool_decide; [done|].
    apply NoDup_app. split; [done|]. split; [|apply NoDup_singleton].
    intros x Hx ->%list_elem_of_singleton. done.
  - intros x. rewrite IH2, elem_of_cons. case_bool_decide as Hy.
    + split; [tauto|]. intros [?|[->|?]]; tauto.
    + rewrite elem_of_app, list_elem_of_singleton. tauto.
Qed.

Lemma unique_NoDup `{EqDecision A} (l : list A) : NoDup (unique l).
Proof. apply (unique_foldl l []). constructor. Qed.

Lemma elem_of_unique `{EqDecision A} (l : list A) x : x ∈ unique l ↔ x ∈ l.
Proof.
  unfold unique. rewrite (proj2 (unique_foldl l [])), elem_of_nil. tauto.
Qed.

Lemma elem_of_get_locations_all clients client l :
  truthy_str client = false →
  l ∈ get_locations clients client ↔ ∃ c, c ∈ clients ∧ Clients.location c = l.
Proof.
  intros Ht. unfold get_locations. rewrite Ht, elem_of_unique, list_elem_of_fmap. split.
  - intros (c & -> & Hin). eauto.
  - intros (c & Hin & <-). eauto.
Qed.

Lemma elem_of_get_locations_client clients client l :
  truthy_str client = true →
  l ∈ get_locations clients client
  ↔ ∃ c, c ∈ clients ∧ Clients.location c = l ∧ Some (Clients.client_name c) = client.
Proof.
  intros Ht. unfold get_locations. rewrite Ht, elem_of_unique, list_elem_of_fmap.
  setoid_rewrite list_elem_of_filter. split.
  - intros (c & -> & Hc & Hin). eauto.
  - intros (c & Hin & <- & Hc). eauto.
Qed.

Lemma elem_of_booths_of clients l b :
  b ∈ booths_of clients l
  ↔ ∃ c, c ∈ clients ∧ Clients.location c = l ∧ Clients.booth c = b.
Proof.
  unfold booths_of. rewrite elem_of_unique, list_elem_of_fmap.
  setoid_rewrite list_elem_of_filter. split.
  - intros (c & -> & Hc & Hin). eauto.
  - intros (c & Hin & Hl & <-). eauto.
Qed.

(** X1. [get_locations] lists every location once. Without a client
    name, or with one that is empty, these are the locations of all rows of
    the client table; with a client name, the locations of the rows of that
    client, which are among the former. *)
Theorem get_locations_spec (clients : list ClientRow) (client : option string) :
  NoDup (get_locations clients client)
  ∧ (truthy_str client = false →
     ∀ l, l ∈ get_locations clients client
          ↔ ∃ c, c ∈ clients ∧ Clients.location c = l)
  ∧ (truthy_str client = true →
     ∀ l, l ∈ get_locations clients client
          ↔ ∃ c, c ∈ clients ∧ Clients.location c = l
                 ∧ Some (Clients.client_name c) = client)
  ∧ (∀ l, l ∈ get_locations clients client → l ∈ get_locations clients None).
Proof.
  split; [unfold get_locations; destruct (truthy_str client); apply unique_NoDup|].
  split; [intros Ht l; by apply elem_of_get_locations_all|].
  split; [intros Ht l; by apply elem_of_get_locations_client|].
  intros l. rewrite (elem_of_get_locations_all clients None) by done.
  destruct (truthy_str client) eqn:E.
  - rewrite elem_of_get_locations_client by done. intros (c & ? & ? & _). eauto.
  - by rewrite elem_of_get_locations_all.
Qed.

(** X2. [booths_of] lists once every booth that some row of the client
    table puts at the location, whoever the client of the row is. *)
Theorem booths_of_spec (clients : list ClientRow) (l : string) :
  NoDup (booths_of clients l)
  ∧ ∀ b, b ∈ booths_of clients l
         ↔ ∃ c, c ∈ clients ∧ Clients.location c = l ∧ Clients.booth c = b.
Proof. split; [apply unique_NoDup|apply elem_of_booths_of]. Qed.

(** X3. The location page, for a session that is logged in and has a
    role. A client whose name is not empty is refused exactly when no row of
    the client table gives that client the location; every other role is
    never refused. The page that is shown lists once every booth that the
    table puts at the location, the booths of other clients among them; for
    a location that the table does not know it lists none. *)
Theorem location_access (W : World) (session : Session) (loc_name r : string) :
  username session ≠ None → role session = Some r →
  ∃ res, location W session loc_name = Ok res
    ∧ (r ≠ "client" → res ≠ LocationDenied)
    ∧ (r = "client" → truthy_str (client_name session) = true →
       (res = LocationDenied
        ↔ ¬ ∃ c, c ∈ df_clients W ∧ Clients.location c = loc_name
                 ∧ Some (Clients.client_name c) = client_name session))
    ∧ (res ≠ LocationDenied →
       ∃ locations booths, res = LocationPage locations loc_name booths
         ∧ NoDup booths
         ∧ (∀ b, b ∈ booths ↔ ∃ c, c ∈ df_clients W ∧ Clients.location c = loc_name
                                   ∧ Clients.booth c = b)).
Proof.
  intros Hu Hr. unfold location, session_role, client_filter.
  rewrite bool_decide_eq_false_2, Hr by done. simpl.
  destruct (decide (r = "client")) as [->|Hne].
  - rewrite !bool_decide_eq_true_2 by done. simpl.
    destruct (decide (loc_name ∈ get_locations (df_clients W) (client_name session)))
      as [Hin|Hin].
    + rewrite (bool_decide_eq_true_2 _ Hin). simpl. eexists. split; [done|].
      split; [done|]. split.
      * intros _ Ht. split; [done|]. intros Hno. destruct Hno.
        by apply elem_of_get_locations_client.
      * intros _. eexists _, _. split; [done|].
        split; [apply unique_NoDup|apply elem_of_booths_of].
    + rewrite (bool_decide_eq_false_2 _ Hin). simpl. eexists. split; [done|].
      split; [done|]. split; [|done].
      intros _ Ht. split; [|done]. intros _ Hex. apply Hin.
      by apply elem_of_get_locations_client.
  - rewrite (bool_decide_eq_false_2 (r = "client")) by done. simpl.
    eexists. split; [done|]. split; [done|]. split; [done|].
    intros _. eexists _, _. split; [done|].
        split; [apply unique_NoDup|apply elem_of_booths_of].
Qed.

(** X4. A client session whose client name is missing or empty is
    treated as one without a filter: it is given the locations of every
    client, and the page of each of them. *)
Theorem nameless_client_sees_all W session loc_name :
  username session ≠ None → role session = Some "client" →
  truthy_str (client_name session) = false →
  get_locations (df_clients W) (client_filter session) = get_locations (df_clients W) None
  ∧ (loc_name ∈ get_locations (df_clients W) None →
     location W session loc_name
     = Ok (LocationPage (get_locations (df_clients W) None) loc_name
             (booths_of (df_clients W) loc_name))).
Proof.
  intros Hu Hr Ht.
  assert (get_locations (df_clients W) (client_filter session)
          = get_locations (df_clients W) None) as Heq.
  { unfold client_filter. rewrite Hr, bool_decide_eq_true_2 by done.
    unfold get_locations. by rewrite Ht. }
  split; [done|]. intros Hin. unfold location, session_role.
  rewrite bool_decide_eq_false_2, Hr, Heq by done. simpl.
  by rewrite (bool_decide_eq_true_2 _ Hin).
Qed.

(** ** The loops of [dashboard], in closed form *)

Lemma exceeds_typed c bound :
  c = CNone ∨ is_numeric c →
  exceeds c bound = Ok (match c with CNum q => Qgtb q bound | _ => false end).
Proof. intros [->|H]; [done|]. by destruct c. Qed.

Lemma over_threshold_typed {A} r (k : bool → result A) :
  typed_row r →
  (high_co2 <- exceeds (Series_get r "co2_ppm") 1000;
   alert <- (if high_co2 then Ok true else exceeds (Series_get r "temp_c") 25);
   k alert)
  = k (over_threshold r).
Proof.
  intros Ht. unfold over_threshold.
  rewrite !exceeds_typed by (apply typed_get_numeric; [done|compute_done]). simpl.
  by destruct (match Series_get r "co2_ppm" with CNum q => Qgtb q 1000 | _ => false end).
Qed.

Lemma loaded_frame pd W l b df :
  pandas_contract pd → load_sensor_data pd W l b = Ok (Some df) →
  empty df = false ∧ ∃ r, last (rows df) = Some r ∧ typed_row r.
Proof.
  intros Hpd Hload.
  destruct (load_sensor_data_normalized pd W l b df Hpd Hload) as [[Hcols Htyped _ _] Hrows].
  split.
  - unfold empty. rewrite !bool_decide_eq_false_2; [done| |done].
    intros Hnil. specialize (Hcols "time" ltac:(compute_done)).
    rewrite Hnil in Hcols. by apply elem_of_nil in Hcols.
  - destruct (last (rows df)) as [r|] eqn:E.
    + exists r. split; [done|]. rewrite Forall_forall in Htyped.
      by apply Htyped, last_Some_elem_of.
    + by apply last_None in E.
Qed.

Lemma last_reading_typed pd W l b r :
  pandas_contract pd → last_reading pd W l b = Some r → typed_row r.
Proof.
  intros Hpd. unfold last_reading.
  destruct (load_sensor_data pd W l b) as [[df|]|] eqn:E; try done.
  destruct (loaded_frame pd W l b df Hpd E) as (-> & r' & -> & Ht). by intros [= <-].
Qed.

(** One pass of the inner loop. *)
Lemma dashboard_booth_eq pd W l b s :
  pandas_contract pd →
  dashboard_booth pd W l b s
  = Ok {| loc := loc s; booth_name := Some b;
          latest := match last_reading pd W l b with
                    | Some r => Some r
                    | None => latest s
                    end;
          alert_count := if booth_alerting pd W l b then S (alert_count s)
                         else alert_count s;
          location_summaries := location_summaries s |}.
Proof.
  intros Hpd. unfold dashboard_booth, booth_alerting, last_reading.
  destruct (load_sensor_data_never_raises pd W l b) as [[df|] E]; rewrite E; simpl; [|done].
  destruct (loaded_frame pd W l b df Hpd E) as (-> & r & Hr & Ht). simpl.
  unfold iloc_last. rewrite Hr. simpl.
  by rewrite (over_threshold_typed r _ Ht).
Qed.

Lemma locals_eta s :
  {| loc := loc s; booth_name := booth_name s; latest := latest s;
     alert_count := alert_count s; location_summaries := location_summaries s |} = s.
Proof. by destruct s. Qed.

Lemma inner_loop_eq pd W l bs s :
  pandas_contract pd →
  for_in bs (dashboard_booth pd W l) s = Ok (after_booths pd W l bs s).
Proof.
  intros Hpd. revert s. induction bs as [|b bs IH]; intros s.
  { simpl. unfold after_booths. simpl. rewrite Nat.add_0_r. by rewrite locals_eta. }
  simpl. rewrite dashboard_booth_eq by done. simpl. rewrite IH.
  unfold after_booths. simpl. f_equal. f_equal.
  - rewrite last_cons. by destruct (last bs).
  - destruct (last_reading pd W l b) as [r|]; simpl; [|done].
    rewrite last_cons. by destruct (last _).
  - destruct (booth_alerting pd W l b) eqn:E.
    + rewrite filter_cons_True by done. simpl. lia.
    + rewrite filter_cons_False by (by rewrite E). done.
Qed.

Lemma dashboard_location_eq pd W l s :
  pandas_contract pd →
  dashboard_location pd W l s
  = Ok {| loc := Some l;
          booth_name := match last (booths_of (df_clients W) l) with
                        | Some b => Some b
                        | None => booth_name s
                        end;
          latest := match last (omap (last_reading pd W l) (booths_of (df_clients W) l)) with
                    | Some r => Some r
                    | None => latest s
                    end;
          alert_count := alerting_booths pd W l;
          location_summaries := <[l := alerting_booths pd W l]> (location_summaries s) |}.
Proof.
  intros Hpd. unfold dashboard_location. rewrite inner_loop_eq by done. done.
Qed.

Local Arguments visits : simpl never.

Lemma visits_cons W l ls :
  visits W (l :: ls) = ((λ b, (l, b)) <$> booths_of (df_clients W) l) ++ visits W ls.
Proof. done. Qed.

Lemma last_fmap {A B} (f : A → B) (l : list A) : last (f <$> l) = f <$> last l.
Proof.
  induction l as [|x l IH]; [done|]. csimpl. rewrite !last_cons, IH.
  by destruct (last l).
Qed.

Lemma omap_visited pd W l (bs : list string) :
  omap (visited_reading pd W) ((λ b, (l, b)) <$> bs) = omap (last_reading pd W l) bs.
Proof. induction bs as [|b bs IH]; [done|]. csimpl. by rewrite IH. Qed.

Lemma outer_loop_eq pd W ls s :
  pandas_contract pd →
  for_in ls (dashboard_location pd W) s = Ok (after_locations pd W ls s).
Proof.
  intros Hpd. revert s. induction ls as [|l ls IH]; intros s.
  { simpl. unfold after_locations. simpl. by rewrite locals_eta. }
  simpl. rewrite dashboard_location_eq by done. simpl. rewrite IH.
  unfold after_locations. simpl. f_equal. f_equal.
  - rewrite last_cons. by destruct (last ls).
  - rewrite visits_cons, last_app. destruct (last (visits W ls)); [done|].
    rewrite last_fmap. by destruct (last (booths_of _ _)).
  - rewrite visits_cons, omap_app, last_app, omap_visited.
    by destruct (last (omap (visited_reading pd W) (visits W ls))).
  - rewrite last_cons. by destruct (last ls).
Qed.

Lemma summaries_lookup (f : string → nat) (ls : list string) (m : gmap string nat) k :
  foldl (λ m l, <[l := f l]> m) m ls !! k
  = if bool_decide (k ∈ ls) then Some (f k) else m !! k.
Proof.
  revert m. induction ls as [|l ls IH]; intros m; simpl; [done|].
  rewrite IH. destruct (decide (k ∈ ls)) as [Hin|Hin].
  - rewrite !bool_decide_eq_true_2; [done|by right|done].
  - rewrite (bool_decide_eq_false_2 _ Hin). destruct (decide (l = k)) as [->|Hne].
    + rewrite lookup_insert_eq, bool_decide_eq_true_2; [done|by left].
    + rewrite lookup_insert_ne, bool_decide_eq_false_2; [done| |done].
      intros [->|?]%elem_of_cons; done.
Qed.

(** ** What [dashboard] returns *)

(** The request, with the loops replaced by their result. *)
Lemma dashboard_eq pd W session :
  pandas_contract pd → username session ≠ None →
  let ls := get_locations (df_clients W) (client_filter session) in
  let s := after_locations pd W ls locals0 in
  dashboard pd W session
  = (active_alerts <- alerts_log s;
     system_status <- status_panel W s;
     Ok (DashboardPage ls (location_summaries s) (spotlight_kpi pd W)
           active_alerts system_status)).
Proof.
  intros Hpd Hu ls s. unfold dashboard. rewrite bool_decide_eq_false_2 by done.
  fold ls. rewrite outer_loop_eq by done. simpl. fold s.
  destruct (alerts_log s); simpl; [|done].
  destruct (status_panel W s); simpl; [|done].
  unfold spotlight_kpi.
  by destruct (load_sensor_data_never_raises pd W "Adelaide" "Booth A") as [[df|] ->].
Qed.

Lemma visits_last W ls p :
  last (visits W ls) = Some p → ∃ l, last ls = Some l.
Proof.
  destruct ls as [|l ls]; [done|]. intros _. rewrite last_cons.
  destruct (last ls); eauto.
Qed.

Lemma visited_last pd W ls r :
  last (omap (visited_reading pd W) (visits W ls)) = Some r →
  ∃ p, last (visits W ls) = Some p.
Proof.
  destruct (last (visits W ls)) as [p|] eqn:E; [eauto|].
  apply last_None in E. by rewrite E.
Qed.

Lemma visited_typed pd W ps r :
  pandas_contract pd →
  last (omap (visited_reading pd W) ps) = Some r → typed_row r.
Proof.
  intros Hpd Hr. apply last_Some_elem_of, list_elem_of_omap in Hr as ([l b] & _ & Hr).
  by eapply last_reading_typed.
Qed.

(** X5. The count that the dashboard shows for a location is the number
    of its booths whose last reading is over a threshold: the page has one
    count for each of its locations and no other. *)
Theorem dashboard_summaries (pd : Pandas) (W : World) (session : Session)
    ls summaries kpi_data active_alerts system_status :
  pandas_contract pd →
  dashboard pd W session
  = Ok (DashboardPage ls summaries kpi_data active_alerts system_status) →
  ls = get_locations (df_clients W) (client_filter session)
  ∧ ∀ l, summaries !! l
         = if bool_decide (l ∈ ls) then Some (alerting_booths pd W l) else None.
Proof.
  intros Hpd. destruct (decide (username session = None)) as [Hu|Hu].
  { unfold dashboard. by rewrite bool_decide_eq_true_2. }
  rewrite dashboard_eq by done.
  destruct (alerts_log _); simpl; [|done].
  destruct (status_panel _ _); simpl; [|done].
  intros [= <- <- _ _ _]. split; [done|]. intros l. apply summaries_lookup.
Qed.

Lemma numeric_over_spec (r : Row) key bound :
  match Series_get r key with CNum q => Qgtb q bound | _ => false end = true
  ↔ ∃ q, r !! key = Some (CNum q) ∧ (bound < q)%Q.
Proof.
  destruct (Series_get r key) eqn:E;
    try (split; [done|]; intros (q' & Hq%Series_get_num & _); congruence).
  rewrite Qgtb_lt. apply Series_get_num in E. split; [eauto|].
  intros (q' & Hq & ?). congruence.
Qed.

Lemma over_threshold_spec r :
  over_threshold r = true
  ↔ (∃ q, r !! "co2_ppm" = Some (CNum q) ∧ (1000 < q)%Q)
    ∨ (∃ t, r !! "temp_c" = Some (CNum t) ∧ (25 < t)%Q).
Proof.
  unfold over_threshold. by rewrite orb_true_iff, !numeric_over_spec.
Qed.

Lemma status_panel_typed W s l b r :
  loc s = Some l → booth_name s = Some b → latest s = Some r → typed_row r →
  status_panel W s
  = if bool_decide (r !! "time" = Some CNaT) then Raise ValueError
    else Ok [status_entry W l b r].
Proof.
  intros Hl Hb Hr [_ Ht]. unfold status_entry.
  destruct (r !! "time") as [v|] eqn:E.
  - specialize (Ht v eq_refl). destruct v; try done.
    + rewrite bool_decide_eq_false_2 by done. by apply (status_panel_seen W s l b r t).
    + rewrite bool_decide_eq_true_2 by done.
      apply (status_panel_NaT W s r); [done..| |]; congruence.
  - rewrite bool_decide_eq_false_2 by done.
    unfold status_panel, Series_get. rewrite Hl, Hb, Hr. simpl. by rewrite E.
Qed.

(** The whole of [dashboard] for a session that is logged in. *)
Lemma dashboard_spec pd W session :
  pandas_contract pd → username session ≠ None →
  let ls := get_locations (df_clients W) (client_filter session) in
  dashboard pd W session
  = match last (omap (visited_reading pd W) (visits W ls)), last (visits W ls), last ls with
    | Some r, Some p, Some l =>
        if bool_decide (r !! "time" = Some CNaT) then Raise ValueError
        else Ok (DashboardPage ls
                   (foldl (λ m l, <[l := alerting_booths pd W l]> m) ∅ ls)
                   (spotlight_kpi pd W)
                   (co2_rule l p.2 (Series_get r "co2_ppm")
                    ++ temp_rule l p.2 (Series_get r "temp_c"))
                   [status_entry W l p.2 r])
    | _, _, _ => Raise (UnboundLocalError "latest")
    end.
Proof.
  intros Hpd Hu ls. rewrite dashboard_eq by done. fold ls.
  destruct (last (omap (visited_reading pd W) (visits W ls))) as [r|] eqn:Hr.
  - destruct (visited_last pd W ls r Hr) as [p Hp].
    destruct (visits_last W ls p Hp) as [l Hl]. rewrite Hp, Hl.
    pose proof (visited_typed pd W _ r Hpd Hr) as Ht.
    rewrite (alerts_log_eq _ l p.2 r), (status_panel_typed W _ l p.2 r);
      try done; simpl; try (by rewrite ?Hr, ?Hp, ?Hl).
    by case_bool_decide.
  - unfold alerts_log. simpl. by rewrite Hr.
Qed.

(** ** Rectangular frames *)





(** ** The historical context, in closed form *)









(** ** What [booth] returns *)





(** ** The outcomes of [dashboard] *)



(** X9. What the dashboard page reports. The alerts log and the status
    panel of a page describe one reading, the last reading of the last
    visited booth that has data, under the names of the last location and of
    the last booth visited, which need not be the booth of the reading. *)
Theorem dashboard_reports_one_reading (pd : Pandas) (W : World) (session : Session)
    ls summaries kpi_data active_alerts system_status :
  pandas_contract pd →
  dashboard pd W session
  = Ok (DashboardPage ls summaries kpi_data active_alerts system_status) →
  ∃ l p r, last ls = Some l ∧ last (visits W ls) = Some p
    ∧ last (omap (visited_reading pd W) (visits W ls)) = Some r
    ∧ active_alerts = co2_rule l p.2 (Series_get r "co2_ppm")
                      ++ temp_rule l p.2 (Series_get r "temp_c")
    ∧ system_status = [status_entry W l p.2 r].
Proof.
  intros Hpd. destruct (decide (username session = None)) as [Hu|Hu].
  { unfold dashboard. by rewrite bool_decide_eq_true_2. }
  rewrite dashboard_spec by done.
  destruct (last (omap _ _)) as [r|] eqn:Hr; [|done].
  destruct (last (visits _ _)) as [p|] eqn:Hp; [|done].
  destruct (last (get_locations _ _)) as [l|] eqn:Hl; [|done].
  case_bool_decide; [done|]. intros [= <- _ _ <- <-].
  by exists l, p, r.
Qed.

(** ** What [load_sensor_data] returns *)



Lemma load_local pd W l b :
  ¬ is_remote l b →
  load_sensor_data pd W l b
  = match files W !! csv_path l (remove_spaces b) with
    | Some (Ok raw) => if empty raw then Ok None else Some <$> normalize pd raw
    | _ => Ok None
    end.
Proof.
  rewrite remote_branch, not_true_iff_false. intros Hr.
  unfold load_sensor_data. rewrite Hr.
  destruct (files W !! _) as [[raw|e]|]; simpl; try done.
  by destruct (empty raw).
Qed.






(** X12. Which file a booth is read from. Away from the remote booth the
    result of [load_sensor_data] is decided by the path of the file alone:
    two booths whose names give the same path are given the same data,
    whatever their names are, and so are two spellings of a location and
    of a booth that differ in spaces only. *)
Theorem same_file_same_data (pd : Pandas) (W : World) (l1 b1 l2 b2 : string) :
  ¬ is_remote l1 b1 → ¬ is_remote l2 b2 →
  (csv_path l1 (remove_spaces b1) = csv_path l2 (remove_spaces b2) →
   load_sensor_data pd W l1 b1 = load_sensor_data pd W l2 b2)
  ∧ (remove_spaces l1 = remove_spaces l2 → remove_spaces b1 = remove_spaces b2 →
     load_sensor_data pd W l1 b1 = load_sensor_data pd W l2 b2).
Proof.
  intros H1 H2. split.
  - intros Hp. by rewrite !load_local, Hp by done.
  - intros Hl Hb. rewrite !load_local by done. unfold csv_path. by rewrite Hl, Hb.
Qed.

(** ** Counting and the KPI series *)

Lemma sum_indicator `{EqDecision A} (x : A) (l : list A) :
  NoDup l → x ∈ l →
  sum_list_with (λ v, if decide (x = v) then 1%nat else 0%nat) l = 1%nat.
Proof.
  induction l as [|y l IH]; intros Hnd Hx; [by apply elem_of_nil in Hx|].
  apply NoDup_cons in Hnd as [Hy Hnd]. simpl.
  destruct (decide (x = y)) as [->|Hne].
  - assert (sum_list_with (λ v, if decide (y = v) then 1%nat else 0%nat) l = 0%nat) as ->; [|done].
    clear IH Hnd Hx. induction l as [|z l IH]; [done|]. simpl.
    apply not_elem_of_cons in Hy as [Hyz Hy]. rewrite decide_False by done. by apply IH.
  - apply elem_of_cons in Hx as [?|Hx]; [done|]. by rewrite IH.
Qed.

Lemma sum_occurrences `{EqDecision A} (keys vs : list A) :
  NoDup keys → (∀ v, v ∈ vs → v ∈ keys) →
  sum_list_with (λ k, length (filter (λ x, x = k) vs)) keys = length vs.
Proof.
  intros Hnd. induction vs as [|x vs IH]; intros Hin.
  { clear. induction keys as [|k keys IHk]; [done|]. simpl in *. by rewrite IHk. }
  transitivity (sum_list_with (λ k, (if decide (x = k) then 1 else 0)
                                    + length (filter (λ y, y = k) vs))%nat keys).
  { clear. induction keys as [|k keys IHk]; [done|]. simpl. rewrite IHk. f_equal.
    destruct (decide (x = k)) as [->|Hne].
    - by rewrite filter_cons_True.
    - by rewrite filter_cons_False. }
  assert (∀ f g : A → nat, sum_list_with (λ k, f k + g k)%nat keys
                           = (sum_list_with f keys + sum_list_with g keys)%nat) as Hadd.
  { intros f g. clear. induction keys as [|k keys IHk]; [done|]. simpl. rewrite IHk. lia. }
  rewrite Hadd, sum_indicator, IH; [done| |done|].
  - intros v Hv. apply Hin. by right.
  - apply Hin. by left.
Qed.

Lemma value_counts_total (cs : list cell) :
  sum_list (value_counts cs).*2 = length (filter (λ c, isna c = false) cs).
Proof.
  unfold value_counts. set (vs := filter (λ c, isna c = false) cs).
  transitivity (sum_list_with (λ k, length (filter (λ x, x = k) vs)) (unique vs)).
  { generalize (unique vs). intros l. induction l as [|k l IH]; [done|].
    csimpl. by rewrite IH. }
  apply sum_occurrences; [apply unique_NoDup|]. intros v. by rewrite elem_of_unique.
Qed.

(** The keys of [value_counts] are the values that are not null, each
    once; the count of a key is the number of its occurrences, which is at
    least one. *)
Lemma value_counts_keys (cs : list cell) :
  NoDup (value_counts cs).*1
  ∧ (∀ v, v ∈ (value_counts cs).*1 ↔ v ∈ cs ∧ isna v = false)
  ∧ (∀ v n, (v, n) ∈ value_counts cs →
            n = length (filter (λ x, x = v) cs) ∧ (0 < n)%nat).
Proof.
  unfold value_counts. set (vs := filter (λ c, isna c = false) cs).
  assert (∀ v, isna v = false → filter (λ x, x = v) vs = filter (λ x, x = v) cs) as Hcount.
  { intros v Hv. unfold vs. clear vs. induction cs as [|c cs IH]; [done|].
    destruct (decide (c = v)) as [->|Hne].
    - rewrite (filter_cons_True (λ c, isna c = false)) by done.
      rewrite !filter_cons_True by done. by rewrite IH.
    - rewrite (filter_cons_False (λ x, x = v) c cs) by done. rewrite <-IH.
      destruct (decide (isna c = false)).
      + rewrite (filter_cons_True (λ c, isna c = false)) by done.
        by rewrite filter_cons_False.
      + by rewrite (filter_cons_False (λ c, isna c = false)). }
  assert (((λ v : cell, (v, length (filter (λ x, x = v) vs))) <$> unique vs).*1
          = unique vs) as Hk.
  { generalize (unique vs). intros l. induction l as [|k l IH]; [done|].
    csimpl. f_equal. exact IH. }
  split; [|split].
  - rewrite Hk. apply unique_NoDup.
  - intros v. rewrite Hk, elem_of_unique. unfold vs. by rewrite list_elem_of_filter, (comm and).
  - intros v n (v' & [= <- ->] & Hv)%list_elem_of_fmap.
    rewrite elem_of_unique in Hv. pose proof Hv as Hv'.
    apply list_elem_of_filter in Hv' as [Hna _].
    rewrite Hcount by done. split; [done|].
    rewrite <-Hcount by done.
    assert (v ∈ filter (λ x, x = v) vs) as Hin by (by apply list_elem_of_filter).
    destruct (filter (λ x, x = v) vs); [by apply elem_of_nil in Hin|simpl; lia].
Qed.

Lemma length_tail_rows n (rs : list Row) : length (tail_rows n rs) = (n `min` length rs)%nat.
Proof. unfold tail_rows. rewrite length_drop. lia. Qed.

Lemma tail_rows_suffix n (rs : list Row) : tail_rows n rs `suffix_of` rs.
Proof. apply suffix_drop. Qed.

Lemma length_filter_fmap {A B} (f : A → B) (P : B → Prop) `{!∀ y, Decision (P y)}
    (l : list A) :
  length (filter P (f <$> l)) = length (filter (λ x, P (f x)) l).
Proof.
  induction l as [|x l IH]; [done|]. csimpl.
  destruct (decide (P (f x))) as [HP|HP].
  - rewrite !filter_cons_True by done. simpl. by rewrite IH.
  - by rewrite !filter_cons_False by done.
Qed.

Lemma dashboard_page_kpi pd W session ls sm kpi al st :
  dashboard pd W session = Ok (DashboardPage ls sm kpi al st) → kpi = spotlight_kpi pd W.
Proof.
  unfold dashboard, spotlight_kpi. case_bool_decide; [done|].
  destruct (for_in _ _ _) as [s|]; simpl; [|done].
  destruct (alerts_log s); simpl; [|done].
  destruct (status_panel W s); simpl; [|done].
  destruct (load_sensor_data pd W "Adelaide" "Booth A") as [[df|]|]; simpl; [| |done];
    by intros [= _ _ <- _ _].
Qed.

Lemma spotlight_kpi_sheet pd W W' :
  worksheet W' = worksheet W → spotlight_kpi pd W' = spotlight_kpi pd W.
Proof.
  intros HW. unfold spotlight_kpi, load_sensor_data, get_data_from_sheet. simpl.
  by rewrite HW.
Qed.

(** X13. The KPI block of the dashboard. It is computed from the remote
    sheet of 'Adelaide'/'Booth A' and from nothing else: every session, of
    whatever client and role, in every state of the local files and of the
    client table, is shown the same block. The block is left out exactly
    when [load_sensor_data] has no frame for that booth; otherwise its three
    series are aligned, one entry for each of the last 24 readings or for
    each reading when there are fewer, and the occupancy counts are those of
    the states that are not null among these readings. *)
Theorem dashboard_kpi_is_the_sheet (pd : Pandas) (W : World) (session : Session)
    ls summaries kpi_data active_alerts system_status :
  pandas_contract pd →
  dashboard pd W session
  = Ok (DashboardPage ls summaries kpi_data active_alerts system_status) →
  (∀ W' session' ls' summaries' kpi_data' active_alerts' system_status',
      worksheet W' = worksheet W →
      dashboard pd W' session'
      = Ok (DashboardPage ls' summaries' kpi_data' active_alerts' system_status') →
      kpi_data' = kpi_data)
  ∧ match kpi_data with
    | None => load_sensor_data pd W "Adelaide" "Booth A" = Ok None
    | Some kpi =>
        ∃ df recent, load_sensor_data pd W "Adelaide" "Booth A" = Ok (Some df)
          ∧ recent `suffix_of` rows df
          ∧ length recent = (24 `min` length (rows df))%nat
          ∧ (0 < length recent)%nat
          ∧ length (temp_labels kpi) = length recent
          ∧ temp_values kpi = (λ r, Series_get r "temp_c") <$> recent
          ∧ humidity_values kpi = (λ r, Series_get r "humidity_pct") <$> recent
          ∧ NoDup (occupancy_counts kpi).*1
          ∧ (∀ v n, (v, n) ∈ occupancy_counts kpi →
               isna v = false
               ∧ n = length (filter (λ r, Series_get r "pir_state" = v) recent)
               ∧ (0 < n)%nat)
          ∧ sum_list (occupancy_counts kpi).*2
            = length (filter (λ r, isna (Series_get r "pir_state") = false) recent)
    end.
Proof.
  intros Hpd Hpage. apply dashboard_page_kpi in Hpage as ->. split.
  { intros W' session' ls' sm' kpi' al' st' HW Hpage'.
    apply dashboard_page_kpi in Hpage' as ->. by apply spotlight_kpi_sheet. }
  unfold spotlight_kpi.
  destruct (load_sensor_data_never_raises pd W "Adelaide" "Booth A") as [[df|] Hload];
    rewrite Hload; [|done].
  destruct (load_sensor_data_normalized pd W _ _ df Hpd Hload) as [_ Hrows].
  destruct (loaded_frame pd W _ _ df Hpd Hload) as [-> _]. simpl.
  exists df, (tail_rows 24 (rows df)).
  split; [done|]. split; [apply tail_rows_suffix|].
  split; [apply length_tail_rows|]. split.
  { rewrite length_tail_rows. destruct (rows df); [done|simpl; lia]. }
  split; [by rewrite length_fmap|]. split; [done|]. split; [done|].
  destruct (value_counts_keys ((λ r, Series_get r "pir_state") <$> tail_rows 24 (rows df)))
    as (Hnd & Hkeys & Hcount).
  split; [done|]. split.
  { intros v n Hvn. destruct (Hcount v n Hvn) as [-> Hpos].
    assert (v ∈ (value_counts ((λ r, Series_get r "pir_state")
                                 <$> tail_rows 24 (rows df))).*1) as Hv
      by (apply list_elem_of_fmap; by exists (v, length
            (filter (λ x, x = v) ((λ r, Series_get r "pir_state")
                                    <$> tail_rows 24 (rows df))))).
    apply Hkeys in Hv as [_ Hna]. split; [done|]. split; [|done].
    apply length_filter_fmap. }
  rewrite value_counts_total. apply length_filter_fmap.
Qed.

(** ** The readings that are plotted *)

Lemma times_filter_elem (P : Row → Prop) `{!∀ r, Decision (P r)} rs t :
  t ∈ times (filter P rs) → t ∈ times rs.
Proof.
  unfold times. rewrite !list_elem_of_omap.
  intros (r & [_ Hr]%list_elem_of_filter & Ht). eauto.
Qed.

Lemma times_filter_sorted (P : Row → Prop) `{!∀ r, Decision (P r)} rs :
  StronglySorted Z.le (times rs) → StronglySorted Z.le (times (filter P rs)).
Proof.
  induction rs as [|r rs IH]; [done|]. intros Hs.
  assert (StronglySorted Z.le (times rs)) as Hs'.
  { unfold times in *. simpl in Hs. destruct (time_of r); [|done].
    by apply StronglySorted_cons in Hs as [_ Hs]. }
  destruct (decide (P r)) as [HP|HP].
  - rewrite filter_cons_True by done. unfold times in *. simpl in *.
    destruct (time_of r) as [t|]; [|by apply IH].
    apply StronglySorted_cons in Hs as [Hle _]. apply StronglySorted_cons.
    split; [|by apply IH]. rewrite Forall_forall in *. intros t' Ht'.
    by apply Hle, (times_filter_elem P).
  - rewrite filter_cons_False by done. by apply IH.
Qed.

Lemma complete_time metric (r : Row) :
  typed_row r → complete metric r →
  ∃ t, r !! "time" = Some (CTime t) ∧ isna (Series_get r metric) = false.
Proof.
  intros [_ Ht] Hc. unfold complete in Hc.
  apply Forall_cons in Hc as [H1 Hc]. apply Forall_cons in Hc as [H2 _].
  unfold Series_get in H1.
  destruct (r !! "time") as [v|] eqn:E; [|done].
  specialize (Ht v eq_refl). destruct v; try done. by eexists.
Qed.

Lemma plot_df_eq metric df :
  "time" ∈ columns df →
  plot_df metric df
  = if bool_decide (metric ∈ columns df)
    then Ok (tail_rows 100 (filter (complete metric) (rows df)))
    else Raise (KeyError metric).
Proof.
  intros Ht. unfold plot_df, dropna. simpl.
  rewrite (bool_decide_eq_true_2 _ Ht). simpl.
  by case_bool_decide.
Qed.

(** X14. The readings that the live graph plots (line 292), for the frame
    that [load_sensor_data] returns. A metric that is not a column of the
    frame is a KeyError. Otherwise the plotted rows are the last hundred, or
    all when there are fewer, of the rows that have both a time and a value
    of the metric; they ascend in time, and every row that is left out for
    being too many is no later than every row that is plotted. *)
Theorem plotted_readings (pd : Pandas) (W : World) (metric : string) (df : DataFrame) :
  pandas_contract pd →
  load_sensor_data pd W "Adelaide" "Booth A" = Ok (Some df) →
  (metric ∉ columns df → ∃ c, plot_df metric df = Raise (KeyError c))
  ∧ (metric ∈ columns df →
     ∃ rs old, plot_df metric df = Ok rs
       ∧ filter (complete metric) (rows df) = old ++ rs
       ∧ length rs = (100 `min` length (old ++ rs))%nat
       ∧ Forall (λ r, ∃ t, r !! "time" = Some (CTime t)
                          ∧ isna (Series_get r metric) = false) rs
       ∧ StronglySorted Z.le (times rs)
       ∧ length (times rs) = length rs
       ∧ (∀ r t r' t', r ∈ old → r' ∈ rs →
            time_of r = Some t → time_of r' = Some t' → t ≤ t')).
Proof.
  intros Hpd Hload.
  destruct (load_sensor_data_normalized pd W _ _ df Hpd Hload) as [[Hcols Htyped _ Hs] _].
  rewrite plot_df_eq by (apply Hcols; compute_done).
  split; [intros Hm; rewrite bool_decide_eq_false_2 by done; eauto|].
  intros Hm. rewrite bool_decide_eq_true_2 by done.
  set (cs := filter (complete metric) (rows df)).
  exists (tail_rows 100 cs), (take (length cs - 100) cs).
  assert (take (length cs - 100) cs ++ tail_rows 100 cs = cs) as Hcs by apply take_drop.
  split; [done|]. split; [done|]. rewrite Hcs.
  split; [apply length_tail_rows|].
  assert (Forall (λ r, ∃ t, r !! "time" = Some (CTime t)
                           ∧ isna (Series_get r metric) = false) cs) as Hall.
  { apply Forall_forall. intros r [Hc Hr]%list_elem_of_filter.
    apply complete_time; [|done]. rewrite Forall_forall in Htyped. by apply Htyped. }
  assert (StronglySorted Z.le (times cs)) as Hsorted by by apply times_filter_sorted.
  rewrite <-Hcs in Hall, Hsorted. apply Forall_app in Hall as [_ Hall].
  rewrite times_app in Hsorted.
  split; [done|]. split; [by eapply StronglySorted_app_1_r|]. split.
  - clear -Hall. induction Hall as [|r rs (t & Ht & _) _ IH]; [done|].
    unfold times in *. simpl. unfold time_of at 1. rewrite Ht. simpl. f_equal. exact IH.
  - intros r t r' t' Hr Hr' Ht Ht'.
    eapply (StronglySorted_app_1_elem_of Z.le); [exact Hsorted|..];
      apply list_elem_of_omap; eauto.
Qed.

(** ** What normalization keeps *)



(** ** Instances of the theorems on the routes *)

Import Cases.






Lemma location_access_witness :
  username stranger ≠ None ∧ role stranger = Some "client"
  ∧ location both_present stranger "Sydney" = Ok LocationDenied.
Proof.
  assert (username stranger ≠ None) as Hu by discriminate.
  split; [exact Hu|]. split; [reflexivity|].
  destruct (location_access both_present stranger "Sydney" "client" Hu eq_refl)
    as (res & Hres & _ & Hdenied & _).
  rewrite Hres. f_equal. apply (Hdenied eq_refl eq_refl).
  intros (c & Hc & _ & Hname). unfold both_present, two_booths in Hc. simpl in Hc.
  repeat (apply elem_of_cons in Hc as [->|Hc]); [discriminate Hname..|].
  by apply elem_of_nil in Hc.
Defined.

Lemma nameless_client_sees_all_witness :
  username nameless ≠ None ∧ role nameless = Some "client"
  ∧ truthy_str (client_name nameless) = false
  ∧ location both_present nameless "Sydney"
    = Ok (LocationPage ["Sydney"] "Sydney" ["Booth 1"; "Booth 2"]).
Proof.
  assert (username nameless ≠ None) as Hu by discriminate.
  split; [exact Hu|]. split; [reflexivity|]. split; [reflexivity|].
  destruct (nameless_client_sees_all both_present nameless "Sydney" Hu eq_refl eq_refl)
    as [_ Hpage].
  rewrite Hpage; [reflexivity|]. vm_compute. by left.
Defined.

Lemma dashboard_page_locations pd W session ls sm kpi al st :
  dashboard pd W session = Ok (DashboardPage ls sm kpi al st) →
  ls = get_locations (df_clients W) (client_filter session).
Proof.
  unfold dashboard. case_bool_decide; [done|].
  destruct (for_in _ _ _) as [s|]; simpl; [|done].
  destruct (alerts_log s); simpl; [|done].
  destruct (status_panel W s); simpl; [|done].
  destruct (load_sensor_data pd W "Adelaide" "Booth A") as [[df|]|]; simpl; [| |done];
    by intros [= <- _ _ _ _].
Qed.

Lemma dashboard_summaries_witness :
  pandas_contract Reference.pd
  ∧ ∃ ls summaries kpi_data active_alerts system_status,
      dashboard Reference.pd both_present admin
      = Ok (DashboardPage ls summaries kpi_data active_alerts system_status)
      ∧ summaries !! "Sydney" = Some 1%nat ∧ summaries !! "Perth" = None.
Proof.
  split; [exact reference_contract|].
  destruct (dashboard Reference.pd both_present admin)
    as [[e|ls sm kpi al st]|e] eqn:E; [vm_compute in E; discriminate E| |
                                        vm_compute in E; discriminate E].
  exists ls, sm, kpi, al, st. split; [reflexivity|].
  destruct (dashboard_summaries Reference.pd both_present admin ls sm kpi al st
              reference_contract E) as [-> Hs].
  rewrite !Hs. split; vm_compute; reflexivity.
Defined.


Lemma dashboard_reports_one_reading_witness :
  pandas_contract Reference.pd
  ∧ ∃ ls summaries kpi_data active_alerts system_status,
      dashboard Reference.pd both_present admin
      = Ok (DashboardPage ls summaries kpi_data active_alerts system_status)
      ∧ ∃ r, last (omap (visited_reading Reference.pd both_present)
                     (visits both_present ls)) = Some r
             ∧ system_status = [status_entry both_present "Sydney" "Booth 2" r].
Proof.
  split; [exact reference_contract|].
  destruct (dashboard Reference.pd both_present admin)
    as [[e|ls sm kpi al st]|e] eqn:E; [vm_compute in E; discriminate E| |
                                        vm_compute in E; discriminate E].
  exists ls, sm, kpi, al, st. split; [reflexivity|].
  destruct (dashboard_reports_one_reading Reference.pd both_present admin ls sm kpi al st
              reference_contract E) as (l & p & r & Hl & Hp & Hr & _ & Hst).
  exists r. split; [exact Hr|].
  rewrite (dashboard_page_locations _ _ _ _ _ _ _ _ E) in Hl, Hp.
  vm_compute in Hl, Hp. injection Hl as <-. injection Hp as <-. exact Hst.
Defined.





Lemma same_file_same_data_witness :
  ¬ is_remote "A_B" "C" ∧ ¬ is_remote "A" "B_C"
  ∧ csv_path "A_B" (remove_spaces "C") = csv_path "A" (remove_spaces "B_C")
  ∧ load_sensor_data Reference.pd both_present "A_B" "C"
    = load_sensor_data Reference.pd both_present "A" "B_C".
Proof.
  assert (¬ is_remote "A_B" "C") as H1 by (intros [H _]; discriminate H).
  assert (¬ is_remote "A" "B_C") as H2 by (intros [H _]; discriminate H).
  split; [exact H1|]. split; [exact H2|]. split; [reflexivity|].
  exact (proj1 (same_file_same_data Reference.pd both_present "A_B" "C" "A" "B_C" H1 H2)
           eq_refl).
Defined.

Lemma dashboard_kpi_is_the_sheet_witness :
  pandas_contract Reference.pd
  ∧ ∃ ls summaries kpi_data active_alerts system_status,
      dashboard Reference.pd live admin
      = Ok (DashboardPage ls summaries kpi_data active_alerts system_status)
      ∧ ∃ kpi, kpi_data = Some kpi ∧ length (temp_values kpi) = 3%nat
               ∧ length (humidity_values kpi) = 3%nat.
Proof.
  split; [exact reference_contract|].
  destruct (dashboard Reference.pd live admin)
    as [[e|ls sm kpi al st]|e] eqn:E; [vm_compute in E; discriminate E| |
                                        vm_compute in E; discriminate E].
  exists ls, sm, kpi, al, st. split; [reflexivity|].
  destruct (dashboard_kpi_is_the_sheet Reference.pd live admin ls sm kpi al st
              reference_contract E) as [_ Hkpi].
  destruct kpi as [k|]; [|vm_compute in Hkpi; discriminate Hkpi].
  destruct Hkpi as (df & recent & Hload & _ & Hlen & _ & _ & Ht & Hh & _).
  exists k. split; [reflexivity|].
  vm_compute in Hload. injection Hload as <-.
  rewrite Ht, Hh, !length_fmap, Hlen. split; reflexivity.
Defined.

Lemma plotted_readings_witness :
  pandas_contract Reference.pd
  ∧ load_sensor_data Reference.pd live "Adelaide" "Booth A" = Ok (Some history_frame)
  ∧ ∃ rs, plot_df "temp_c" history_frame = Ok rs ∧ StronglySorted Z.le (times rs).
Proof.
  assert (load_sensor_data Reference.pd live "Adelaide" "Booth A" = Ok (Some history_frame))
    as Hload by (vm_compute; reflexivity).
  split; [exact reference_contract|]. split; [exact Hload|].
  destruct (plotted_readings Reference.pd live "temp_c" history_frame
              reference_contract Hload) as [_ Hplot].
  destruct Hplot as (rs & old & Hrs & _ & _ & _ & Hsorted & _); [compute_done|].
  exists rs. split; [exact Hrs|exact Hsorted].
Defined.

